(** * ip_validator: IPv4 / IPv6 textual address validators

    Shallow embedding of [src/ip_validator.c] and the properties of
    its two entry points, [is_valid_ipv4_address] and
    [is_valid_ipv6_address].

    A C string is the list of the bytes that precede its terminator;
    a [const char *] argument is an [option] of such a list, [None]
    being the null pointer.  A pointer into a string ([str + k]) is
    the pair of the string and the index [k]; where the code hands
    such a pointer to a callee, the callee sees the suffix
    [skipn k str]. *)

From Stdlib Require Import Ascii String List ZArith Lia Bool Arith.
Import ListNotations.

Local Open Scope Z_scope.

(** ** Characters and C strings *)

Module CStr.

Definition NUL : ascii := "000"%char.

(** [str[i]]: the byte at index [i]; the terminator sits at index
    [length str]. *)
Definition char_at (str : list ascii) (i : nat) : ascii := nth i str NUL.

(** A list is the content of a C string when it holds no NUL byte. *)
Definition no_nul (str : list ascii) : bool :=
  forallb (fun c => negb (Ascii.eqb c NUL)) str.

(** [strnlen(str, maxlen)]: scan for the terminator, looking at no
    more than [maxlen] bytes. *)
Fixpoint strnlen (str : list ascii) (maxlen : nat) : nat :=
  match maxlen, str with
  | S m, c :: rest => if Ascii.eqb c NUL then O else S (strnlen rest m)
  | _, _ => O
  end.

(** Character code, as the [int] a [char] promotes to. *)
Definition code (c : ascii) : Z := Z.of_N (N_of_ascii c).

(** [isdigit] in the C locale. *)
Definition isdigit (c : ascii) : bool :=
  ((code "0"%char <=? code c) && (code c <=? code "9"%char)).

(** [ch - '0'] *)
Definition digit_of (c : ascii) : Z := code c - code "0"%char.

Definition of_string (s : string) : list ascii := list_ascii_of_string s.

End CStr.

Import CStr.

(** ** IPv4 *)

(** Maximum dotted-quad length including NUL *)
Definition MAX_SIZE_IPV4 : nat := 16.

(** The overflow guard of [parse_int], evaluated before the
    multiply-add: the accumulator is over 25, or is 25 with a digit
    over 5. *)
Definition overflow_guard (result d : Z) : bool :=
  (result >? 25) || ((result =? 25) && (d >? 5)).

(** Body of the [for (i = start; i < end; i++)] loop of [parse_int];
    [n] is [end - i], the number of iterations left, and [result] the
    value held in [*result].  [None] is [return false]. *)
Fixpoint parse_int_loop (str : list ascii) (n : nat) (i : nat) (result : Z)
  : option Z :=
  match n with
  | O => Some result
  | S n' =>
      let c := char_at str i in
      if negb (isdigit c) then None
      else if overflow_guard result (digit_of c) then None
      else parse_int_loop str n' (S i) (result * 10 + digit_of c)
  end.

(** [parse_int(str, start, end, &result)]: [Some v] when the call
    returns true with [*result = v], [None] when it returns false. *)
Definition parse_int (str : option (list ascii)) (start end_ : nat)
  : option Z :=
  match str with
  | None => None
  | Some s =>
      if (end_ <=? start)%nat || Ascii.eqb (char_at s 0) NUL then None
      else parse_int_loop s (end_ - start) start 0
  end.

(** The [for (i = 0; i <= len; i++)] loop of [is_valid_ipv4_address]
    together with the final [return octet_count == 4]; [n] is
    [len + 1 - i], the number of iterations left. *)
Fixpoint ipv4_loop (str : list ascii) (n : nat) (i : nat)
    (octet_count : Z) (octet_start : nat) : bool :=
  match n with
  | O => octet_count =? 4
  | S n' =>
      let c := char_at str i in
      if Ascii.eqb c "."%char || Ascii.eqb c NUL then
        if (i =? octet_start)%nat then false
        else
          match parse_int (Some str) octet_start i with
          | None => false
          | Some octet_value =>
              if octet_value >? 255 then false
              else if Ascii.eqb c NUL then octet_count + 1 =? 4
              else ipv4_loop str n' (S i) (octet_count + 1) (S i)
          end
      else if negb (isdigit c) then false
      else ipv4_loop str n' (S i) octet_count octet_start
  end.

Definition is_valid_ipv4_address (str : option (list ascii)) : bool :=
  match str with
  | None => false
  | Some s =>
      let len := strnlen s MAX_SIZE_IPV4 in
      ipv4_loop s (S len) 0 0 0
  end.

(** ** IPv6 *)

(** [INET6_ADDRSTRLEN] of [<arpa/inet.h>] *)
Definition INET6_ADDRSTRLEN : nat := 46.

Definition hex_digit_value (ch : ascii) : Z :=
  if ((code "0"%char <=? code ch) && (code ch <=? code "9"%char))
  then code ch - code "0"%char
  else if ((code "a"%char <=? code ch) && (code ch <=? code "f"%char))
  then code ch - code "a"%char + 10
  else if ((code "A"%char <=? code ch) && (code ch <=? code "F"%char))
  then code ch - code "A"%char + 10
  else -1.

(** The locals of [is_valid_ipv6_address]; pointers into [str] are
    kept as offsets from [str]. *)
Record scan_state := mkScan {
  src : nat;
  group_count : Z;
  has_compression : bool;
  curtok : nat;
  xdigits_seen : nat;
  val : Z
}.

Inductive outcome :=
| Continue (st : scan_state)
| Break (st : scan_state)
| Reject.

(** The inner [while (p < src_endp)] loop of the IPv4-suffix branch;
    [n] is [src_endp - p].  [None] is [return false]. *)
Fixpoint count_dots (str : list ascii) (n : nat) (p : nat) (dots : Z)
  : option Z :=
  match n with
  | O => Some dots
  | S n' =>
      let c := char_at str p in
      if Ascii.eqb c "."%char then count_dots str n' (S p) (dots + 1)
      else if negb (isdigit c) then None
      else count_dots str n' (S p) dots
  end.

(** [unsigned int] arithmetic on [val]. *)
Definition uint_shl4_or (v d : Z) : Z :=
  Z.lor (Z.shiftl v 4 mod 2 ^ 32) d.

(** One iteration of the main [while (src < src_endp)] loop, entered
    with [src < src_endp]. *)
Definition ipv6_step (str : list ascii) (src_endp : nat) (st : scan_state)
  : outcome :=
  let ch := char_at str (src st) in
  let src' := S (src st) in
  let digit := hex_digit_value ch in
  if digit >=? 0 then
    if (xdigits_seen st =? 4)%nat then Reject
    else
      let v := uint_shl4_or (val st) digit in
      if v >? 65535 then Reject
      else Continue (mkScan src' (group_count st) (has_compression st)
                            (curtok st) (S (xdigits_seen st)) v)
  else if Ascii.eqb ch ":"%char then
    if (xdigits_seen st =? 0)%nat then
      if has_compression st then Reject
      else Continue (mkScan src' (group_count st) true src'
                            (xdigits_seen st) (val st))
    else if (src' =? src_endp)%nat then Reject
    else if group_count st + 1 >? 8 then Reject
    else Continue (mkScan src' (group_count st + 1) (has_compression st)
                          src' O 0)
  else if Ascii.eqb ch "."%char && (0 <? xdigits_seen st)%nat then
    match count_dots str (src_endp - curtok st) (curtok st) 0 with
    | None => Reject
    | Some dots =>
        if negb (dots =? 3) then Reject
        else if negb (is_valid_ipv4_address (Some (skipn (curtok st) str)))
        then Reject
        else Break (mkScan src' (group_count st + 2) (has_compression st)
                           (curtok st) O (val st))
    end
  else Reject.

(** The main loop; [n] is [src_endp - src].  [None] is [return false],
    [Some st] the locals on leaving the loop. *)
Fixpoint ipv6_loop (str : list ascii) (src_endp : nat) (n : nat)
    (st : scan_state) : option scan_state :=
  match n with
  | O => Some st
  | S n' =>
      match ipv6_step str src_endp st with
      | Continue st' => ipv6_loop str src_endp n' st'
      | Break st' => Some st'
      | Reject => None
      end
  end.

(** Everything up to the end of the main loop: the guards, the
    leading-colon handling and the scan. *)
Definition ipv6_scan (s : list ascii) : option scan_state :=
  if Ascii.eqb (char_at s 0) NUL then None
  else
    let src_endp := strnlen s INET6_ADDRSTRLEN in
    if (0 =? src_endp)%nat then None
    else
      let start :=
        if Ascii.eqb (char_at s 0) ":"%char then
          if (1 =? src_endp)%nat || negb (Ascii.eqb (char_at s 1) ":"%char)
          then None else Some 1%nat
        else Some 0%nat in
      match start with
      | None => None
      | Some src0 =>
          ipv6_loop s src_endp (src_endp - src0)
                    (mkScan src0 0 false src0 O 0)
      end.

(** The group count after the pending group, if any, is closed. *)
Definition final_group_count (st : scan_state) : Z :=
  if (0 <? xdigits_seen st)%nat then group_count st + 1 else group_count st.

(** The code after the loop. *)
Definition ipv6_accept (st : scan_state) : bool :=
  if (0 <? xdigits_seen st)%nat && (group_count st + 1 >? 8) then false
  else
    let gc := final_group_count st in
    if has_compression st then negb (gc >=? 8) else gc =? 8.

Definition is_valid_ipv6_address (str : option (list ascii)) : bool :=
  match str with
  | None => false
  | Some s =>
      match ipv6_scan s with
      | None => false
      | Some st => ipv6_accept st
      end
  end.

(** ** The dotted-quad grammar, in the specification's words *)

(** Segments of a string: the pieces between its dots. *)
Fixpoint split_dots (s : list ascii) : list (list ascii) :=
  match s with
  | [] => [[]]
  | c :: r =>
      if Ascii.eqb c "."%char then [] :: split_dots r
      else (c :: hd [] (split_dots r)) :: tl (split_dots r)
  end.

(** Value of a run of decimal digits, read on top of [acc], with no
    bound on its size. *)
Definition dec_value_from (acc : Z) (digits : list ascii) : Z :=
  fold_left (fun a c => a * 10 + digit_of c) digits acc.

Definition dec_value (digits : list ascii) : Z := dec_value_from 0 digits.

(** A segment is an octet: non-empty, ASCII digits only, value in
    [0,255]. *)
Definition octet_ok (seg : list ascii) : bool :=
  negb (length seg =? 0)%nat && forallb isdigit seg && (dec_value seg <=? 255).

(** Exactly four dot-separated segments, each an octet. *)
Definition spec_ipv4 (s : list ascii) : bool :=
  (length (split_dots s) =? 4)%nat && forallb octet_ok (split_dots s).

(** [a.b.c.d] *)
Definition dotted (a b c d : list ascii) : list ascii :=
  a ++ "."%char :: b ++ "."%char :: c ++ "."%char :: d.

(** Segments written one after the other with a dot in between. *)
Fixpoint join_dots (segs : list (list ascii)) : list ascii :=
  match segs with
  | [] => []
  | seg :: segs' =>
      match segs' with
      | [] => seg
      | _ :: _ => seg ++ "."%char :: join_dots segs'
      end
  end.

(** A segment with [k] zeros put in front. *)
Definition zero_pad (k : nat) (seg : list ascii) : list ascii :=
  repeat "0"%char k ++ seg.

(** [parse_int]'s loop, seen on the digits it visits. *)
Fixpoint parse_digits (cur : list ascii) (acc : Z) : option Z :=
  match cur with
  | [] => Some acc
  | c :: cur' =>
      if negb (isdigit c) then None
      else if overflow_guard acc (digit_of c) then None
      else parse_digits cur' (acc * 10 + digit_of c)
  end.

(** ** Vocabulary for the IPv6 scan *)

Definition is_xdigit (c : ascii) : bool := hex_digit_value c >=? 0.

Definition digit_or_dot (c : ascii) : bool :=
  Ascii.eqb c "."%char || isdigit c.

Definition dot_count (s : list ascii) : Z :=
  Z.of_nat (length (filter (fun c => Ascii.eqb c "."%char) s)).

(** The states the main loop of [is_valid_ipv6_address] can be in at
    its head: the initial locals, with [src] and [curtok] on the first
    byte to scan, and every state an iteration continues with. *)
Inductive scanning (str : list ascii) (src_endp : nat) : scan_state -> Prop :=
| scanning_start src0 :
    scanning str src_endp (mkScan src0 0 false src0 O 0)
| scanning_next st st' :
    scanning str src_endp st ->
    ipv6_step str src_endp st = Continue st' ->
    scanning str src_endp st'.

(** One group of an IPv6 address: 1 to 4 hex digits. *)
Definition hextet (g : list ascii) : bool :=
  negb (length g =? 0)%nat && (length g <=? 4)%nat && forallb is_xdigit g.

(** Groups written one after the other with a colon in between. *)
Fixpoint join_colons (gs : list (list ascii)) : list ascii :=
  match gs with
  | [] => []
  | g :: gs' =>
      match gs' with
      | [] => g
      | _ :: _ => g ++ ":"%char :: join_colons gs'
      end
  end.

(** ** Vocabulary for the further properties *)

(** The digits of base 16, in the two cases. *)
Definition lower_xdigits : list ascii := of_string "0123456789abcdef".
Definition upper_xdigits : list ascii := of_string "0123456789ABCDEF".

(** The bytes [str[start]] ... [str[end_ - 1]]. *)
Definition substring (str : list ascii) (start end_ : nat) : list ascii :=
  map (char_at str) (seq start (end_ - start)).

(** Value of a run of hex digits. *)
Definition hex_value (digits : list ascii) : Z :=
  fold_left (fun a c => a * 16 + hex_digit_value c) digits 0.

(** Two bytes the validators cannot tell apart: the same hex value
    (-1 for a byte that is no hex digit), and both or neither a colon,
    a dot, the terminator. *)
Definition same_class (c d : ascii) : bool :=
  (hex_digit_value c =? hex_digit_value d)
  && Bool.eqb (Ascii.eqb c ":"%char) (Ascii.eqb d ":"%char)
  && Bool.eqb (Ascii.eqb c "."%char) (Ascii.eqb d "."%char)
  && Bool.eqb (Ascii.eqb c NUL) (Ascii.eqb d NUL).

(** [tolower] and [toupper] of the C locale. *)
Definition ascii_tolower (c : ascii) : ascii :=
  if (code "A"%char <=? code c) && (code c <=? code "Z"%char)
  then ascii_of_N (N_of_ascii c + 32) else c.

Definition ascii_toupper (c : ascii) : ascii :=
  if (code "a"%char <=? code c) && (code c <=? code "z"%char)
  then ascii_of_N (N_of_ascii c - 32) else c.

(** ** The regression harness of [src/demo.c] *)















Section Harness.

(** [inet_pton] of the C library: the address family and the text
    give the value it returns. *)
Variable inet_pton : Z -> list ascii -> Z.







End Harness.



(** Reduce the field projections of a [scan_state], and nothing else. *)
Ltac fields :=
  cbn [src group_count has_compression curtok xdigits_seen val] in *.

(** * Facts about characters *)

Section Characters.

Lemma isdigit_not_dot c : isdigit c = true -> Ascii.eqb c "."%char = false.
Proof.
  destruct c as [[] [] [] [] [] [] [] []]; vm_compute; congruence.
Qed.

Lemma isdigit_not_nul c : isdigit c = true -> Ascii.eqb c NUL = false.
Proof.
  destruct c as [[] [] [] [] [] [] [] []]; vm_compute; congruence.
Qed.

Lemma isdigit_range c : isdigit c = true -> 0 <= digit_of c <= 9.
Proof.
  unfold isdigit, digit_of. intros H.
  apply andb_prop in H. destruct H as [H1 H2].
  apply Z.leb_le in H1. apply Z.leb_le in H2.
  change (code "0"%char) with 48 in *. change (code "9"%char) with 57 in *.
  lia.
Qed.

Lemma hex_not_colon c : hex_digit_value c >= 0 -> Ascii.eqb c ":"%char = false.
Proof.
  destruct c as [[] [] [] [] [] [] [] []]; vm_compute; congruence.
Qed.

Lemma hex_not_dot c : hex_digit_value c >= 0 -> Ascii.eqb c "."%char = false.
Proof.
  destruct c as [[] [] [] [] [] [] [] []]; vm_compute; congruence.
Qed.

Lemma hex_digit_value_range c : -1 <= hex_digit_value c <= 15.
Proof.
  destruct c as [[] [] [] [] [] [] [] []]; vm_compute; split; congruence.
Qed.

End Characters.

(** * Facts about C strings *)

Section Strings.

Lemma char_at_app (pre : list ascii) c rest :
  char_at (pre ++ c :: rest) (length pre) = c.
Proof.
  unfold char_at. rewrite app_nth2 by lia.
  rewrite Nat.sub_diag. reflexivity.
Qed.

Lemma char_at_end (s : list ascii) : char_at s (length s) = NUL.
Proof.
  unfold char_at. apply nth_overflow. lia.
Qed.

Lemma no_nul_app s t : no_nul (s ++ t) = no_nul s && no_nul t.
Proof. unfold no_nul. apply forallb_app. Qed.

Lemma no_nul_head c s : no_nul (c :: s) = true -> Ascii.eqb c NUL = false.
Proof.
  simpl. intros H. apply andb_prop in H. destruct H as [H _].
  now apply negb_true_iff in H.
Qed.

Lemma strnlen_no_nul s m :
  no_nul s = true -> strnlen s m = Nat.min (length s) m.
Proof.
  revert m. induction s as [|c s IH]; intros m H.
  - destruct m; reflexivity.
  - destruct m as [|m]; [ reflexivity |].
    simpl. rewrite (no_nul_head _ _ H).
    simpl in H. apply andb_prop in H. destruct H as [_ H].
    now rewrite IH.
Qed.

Lemma digits_no_nul s : forallb isdigit s = true -> no_nul s = true.
Proof.
  induction s as [|c s IH]; simpl; [ reflexivity |].
  intros H. apply andb_prop in H. destruct H as [Hc Hs].
  rewrite (isdigit_not_nul _ Hc). simpl. auto.
Qed.

End Strings.

(** * IPv4: the integer parse *)

Section ParseInt.

Lemma parse_int_loop_sub pre cur rest acc :
  parse_int_loop (pre ++ cur ++ rest) (length cur) (length pre) acc
  = parse_digits cur acc.
Proof.
  revert pre acc. induction cur as [|c cur IH]; intros pre acc.
  - reflexivity.
  - cbn [length parse_int_loop parse_digits app].
    rewrite char_at_app.
    destruct (negb (isdigit c)); [ reflexivity |].
    destruct (overflow_guard acc (digit_of c)); [ reflexivity |].
    specialize (IH (pre ++ [c]) (acc * 10 + digit_of c)).
    rewrite <- app_assoc in IH. cbn [app] in IH.
    rewrite length_app in IH. cbn [length] in IH.
    rewrite Nat.add_1_r in IH. exact IH.
Qed.

(** The guard fires exactly when the multiply-add would leave the
    octet range. *)
Lemma overflow_guard_spec acc d :
  0 <= d <= 9 ->
  overflow_guard acc d = true <-> acc * 10 + d > 255.
Proof.
  intros Hd. unfold overflow_guard.
  rewrite orb_true_iff, andb_true_iff.
  rewrite Z.gtb_gt, Z.eqb_eq, Z.gtb_gt. lia.
Qed.

Lemma overflow_guard_false acc d :
  0 <= d <= 9 ->
  overflow_guard acc d = false <-> acc * 10 + d <= 255.
Proof.
  intros Hd. pose proof (overflow_guard_spec acc d Hd) as [H1 H2].
  destruct (overflow_guard acc d) eqn:E; split; intros H.
  - discriminate.
  - specialize (H1 eq_refl). lia.
  - destruct (Z_le_gt_dec (acc * 10 + d) 255) as [L|G]; [ exact L |].
    specialize (H2 G). discriminate.
  - reflexivity.
Qed.

Lemma dec_value_from_mono acc cur :
  0 <= acc -> forallb isdigit cur = true -> acc <= dec_value_from acc cur.
Proof.
  unfold dec_value_from.
  revert acc. induction cur as [|c cur IH]; intros acc Ha H; simpl.
  - lia.
  - simpl in H. apply andb_prop in H. destruct H as [Hc Hs].
    pose proof (isdigit_range _ Hc).
    specialize (IH (acc * 10 + digit_of c) ltac:(lia) Hs). lia.
Qed.

(** On a run of digits the parse succeeds exactly when the value of
    the whole run is at most 255, and then returns that value. *)
Lemma parse_digits_spec cur acc :
  0 <= acc <= 255 -> forallb isdigit cur = true ->
  parse_digits cur acc =
  if dec_value_from acc cur <=? 255 then Some (dec_value_from acc cur)
  else None.
Proof.
  revert acc. induction cur as [|c cur IH]; intros acc Ha H.
  - unfold dec_value_from. simpl.
    destruct (Z.leb_spec acc 255); [ reflexivity | lia ].
  - simpl in H. apply andb_prop in H. destruct H as [Hc Hs].
    pose proof (isdigit_range _ Hc) as Hd.
    cbn [parse_digits]. rewrite Hc. cbn [negb].
    change (dec_value_from acc (c :: cur))
      with (dec_value_from (acc * 10 + digit_of c) cur).
    destruct (overflow_guard acc (digit_of c)) eqn:G.
    + apply overflow_guard_spec in G; [| exact Hd ].
      pose proof (dec_value_from_mono (acc * 10 + digit_of c) cur
                    ltac:(lia) Hs).
      destruct (Z.leb_spec (dec_value_from (acc * 10 + digit_of c) cur) 255);
        [ lia | reflexivity ].
    + apply overflow_guard_false in G; [| exact Hd ].
      apply IH; [ lia | exact Hs ].
Qed.

(** Whatever the loop has accumulated after any number of iterations
    is an octet value. *)
Lemma parse_int_loop_bound str n i acc r :
  0 <= acc <= 255 ->
  parse_int_loop str n i acc = Some r -> 0 <= r <= 255.
Proof.
  revert i acc. induction n as [|n IH]; intros i acc Ha H.
  - simpl in H. injection H as <-. exact Ha.
  - cbn [parse_int_loop] in H.
    destruct (isdigit (char_at str i)) eqn:Hc; cbn [negb] in H;
      [| discriminate ].
    pose proof (isdigit_range _ Hc) as Hd.
    destruct (overflow_guard acc (digit_of (char_at str i))) eqn:G;
      [ discriminate |].
    apply overflow_guard_false in G; [| exact Hd ].
    eapply IH; [| exact H ]. lia.
Qed.

End ParseInt.

(** * IPv4: the scan *)

Section IPv4Scan.

Lemma split_dots_digits cur rest :
  forallb isdigit cur = true ->
  split_dots (cur ++ rest)
  = (cur ++ hd [] (split_dots rest)) :: tl (split_dots rest).
Proof.
  induction cur as [|c cur IH]; intros H.
  - simpl. destruct rest as [|c r]; [ reflexivity |].
    simpl. destruct (Ascii.eqb c "."%char); reflexivity.
  - simpl in H. apply andb_prop in H. destruct H as [Hc Hs].
    cbn [app split_dots]. rewrite (isdigit_not_dot _ Hc).
    rewrite (IH Hs). reflexivity.
Qed.

Lemma char_at_0_nonempty (s : list ascii) :
  s <> [] -> no_nul s = true -> Ascii.eqb (char_at s 0) NUL = false.
Proof.
  destruct s as [|c s]; [ congruence |].
  intros _ H. unfold char_at. simpl. exact (no_nul_head _ _ H).
Qed.

Lemma parse_int_octet pre cur rest :
  cur <> [] ->
  no_nul (pre ++ cur ++ rest) = true ->
  forallb isdigit cur = true ->
  parse_int (Some (pre ++ cur ++ rest)) (length pre) (length pre + length cur)
  = if dec_value cur <=? 255 then Some (dec_value cur) else None.
Proof.
  intros Hne Hnul Hd. unfold parse_int.
  assert (length cur <> 0)%nat as Hlen
      by (destruct cur; [ congruence | simpl; lia ]).
  destruct (Nat.leb_spec (length pre + length cur) (length pre));
    [ lia |].
  rewrite char_at_0_nonempty; [| | exact Hnul ].
  - cbn [orb].
    replace (length pre + length cur - length pre)%nat with (length cur)
      by lia.
    rewrite parse_int_loop_sub.
    apply parse_digits_spec; [ lia | exact Hd ].
  - destruct pre; [ destruct cur; [ congruence | discriminate ]
                  | discriminate ].
Qed.

Lemma octet_ok_digits cur :
  cur <> [] -> forallb isdigit cur = true ->
  octet_ok cur = (dec_value cur <=? 255).
Proof.
  intros Hne Hd. unfold octet_ok. rewrite Hd.
  destruct cur; [ congruence | reflexivity ].
Qed.

Lemma octet_ok_nondigit cur c rest :
  isdigit c = false -> octet_ok (cur ++ c :: rest) = false.
Proof.
  intros Hc. unfold octet_ok.
  rewrite forallb_app. cbn [forallb]. rewrite Hc.
  rewrite andb_false_r, andb_false_r. reflexivity.
Qed.

Lemma ipv4_loop_S str n i cnt start :
  ipv4_loop str (S n) i cnt start =
  let c := char_at str i in
  if Ascii.eqb c "."%char || Ascii.eqb c NUL then
    if (i =? start)%nat then false
    else
      match parse_int (Some str) start i with
      | None => false
      | Some octet_value =>
          if octet_value >? 255 then false
          else if Ascii.eqb c NUL then cnt + 1 =? 4
          else ipv4_loop str n (S i) (cnt + 1) (S i)
      end
  else if negb (isdigit c) then false
  else ipv4_loop str n (S i) cnt start.
Proof. reflexivity. Qed.

(** Closing the pending octet [cur] at index [i]. *)
Lemma close_octet pre cur rest s i :
  s = pre ++ cur ++ rest -> i = (length pre + length cur)%nat ->
  no_nul s = true -> forallb isdigit cur = true ->
  forall (k : Z -> bool),
  (if (i =? length pre)%nat then false
   else match parse_int (Some s) (length pre) i with
        | None => false
        | Some v => if v >? 255 then false else k v
        end)
  = octet_ok cur && k (dec_value cur).
Proof.
  intros -> -> Hnul Hd k.
  destruct cur as [|d cur].
  - cbn [length]. rewrite Nat.add_0_r, Nat.eqb_refl. reflexivity.
  - destruct (Nat.eqb_spec (length pre + length (d :: cur)) (length pre))
      as [E|_]; [ cbn [length] in E; lia |].
    rewrite parse_int_octet; [| discriminate | exact Hnul | exact Hd ].
    rewrite octet_ok_digits; [| discriminate | exact Hd ].
    destruct (Z.leb_spec (dec_value (d :: cur)) 255) as [L|G];
      [| reflexivity ].
    destruct (Z.gtb_spec (dec_value (d :: cur)) 255); [ lia |].
    reflexivity.
Qed.

(** The loop, entered at index [i] with the bytes of [pre] already
    split off as closed octets and the digits of [cur] pending since
    [octet_start], decides the grammar on what is left. *)
Lemma ipv4_loop_spec rest : forall pre cur cnt s i,
  s = pre ++ cur ++ rest -> i = (length pre + length cur)%nat ->
  no_nul s = true ->
  forallb isdigit cur = true ->
  ipv4_loop s (S (length rest)) i cnt (length pre)
  = (cnt + Z.of_nat (length (split_dots (cur ++ rest))) =? 4)
    && forallb octet_ok (split_dots (cur ++ rest)).
Proof.
  induction rest as [|c rest IH]; intros pre cur cnt s i Hs Hi Hnul Hd;
    rewrite ipv4_loop_S; cbv zeta;
    rewrite (split_dots_digits cur _ Hd).
  - (* the terminator *)
    assert (char_at s i = NUL) as Hc.
    { subst. rewrite app_nil_r, <- length_app. apply char_at_end. }
    rewrite Hc.
    change (Ascii.eqb NUL "."%char) with false.
    change (Ascii.eqb NUL NUL) with true.
    rewrite orb_true_r. cbv iota.
    rewrite (close_octet pre cur [] s i Hs Hi Hnul Hd (fun _ => cnt + 1 =? 4)).
    cbn [split_dots hd tl forallb length]. rewrite app_nil_r.
    rewrite andb_true_r. apply andb_comm.
  - assert (char_at s i = c) as Hc.
    { subst. rewrite app_assoc, <- length_app. apply char_at_app. }
    assert (Ascii.eqb c NUL = false) as Hc0.
    { subst s. rewrite app_assoc, no_nul_app in Hnul.
      apply andb_prop in Hnul. destruct Hnul as [_ Hn].
      exact (no_nul_head _ _ Hn). }
    rewrite Hc, Hc0, orb_false_r.
    change (length (c :: rest)) with (S (length rest)).
    destruct (Ascii.eqb c "."%char) eqn:Hdot; cbv iota.
    + (* a dot closes the pending octet *)
      rewrite (close_octet pre cur (c :: rest) s i Hs Hi Hnul Hd
                 (fun _ => ipv4_loop s (S (length rest)) (S i) (cnt + 1) (S i))).
      cbn [split_dots]. rewrite Hdot. cbn [hd tl forallb length].
      rewrite app_nil_r.
      replace (S i) with (length (pre ++ cur ++ [c])) at 2
        by (rewrite !length_app; cbn [length]; lia).
      rewrite (IH (pre ++ cur ++ [c]) [] (cnt + 1) s (S i)).
      * cbn [app].
        replace (cnt + Z.of_nat (S (length (split_dots rest))))
          with (cnt + 1 + Z.of_nat (length (split_dots rest))) by lia.
        destruct (octet_ok cur); cbn [andb];
          [ reflexivity | apply eq_sym, andb_false_r ].
      * subst s. rewrite <- !app_assoc. reflexivity.
      * rewrite !length_app. cbn [length]. lia.
      * exact Hnul.
      * reflexivity.
    + (* a pending digit, or a stray byte *)
      destruct (isdigit c) eqn:Hdig; cbn [negb]; cbv iota.
      * rewrite (IH pre (cur ++ [c]) cnt s (S i)).
        -- rewrite <- app_assoc. cbn [app].
           rewrite (split_dots_digits cur _ Hd). reflexivity.
        -- subst s. rewrite <- app_assoc. reflexivity.
        -- rewrite length_app. cbn [length]. lia.
        -- exact Hnul.
        -- rewrite forallb_app, Hd. cbn [forallb]. rewrite Hdig. reflexivity.
      * cbn [split_dots]. rewrite Hdot. cbn [hd tl forallb].
        rewrite (octet_ok_nondigit cur c _ Hdig).
        cbn [andb]. apply eq_sym, andb_false_r.
Qed.

(** Within the length the scan covers, the validator decides the
    dotted-quad grammar. *)
Lemma ipv4_decides_grammar s :
  no_nul s = true -> (length s <= MAX_SIZE_IPV4)%nat ->
  is_valid_ipv4_address (Some s) = spec_ipv4 s.
Proof.
  intros Hnul Hlen. unfold is_valid_ipv4_address, spec_ipv4.
  rewrite (strnlen_no_nul _ _ Hnul), Nat.min_l by exact Hlen.
  pose proof (ipv4_loop_spec s [] [] 0 s 0%nat eq_refl eq_refl Hnul eq_refl)
    as H.
  cbn [app length] in H. cbv zeta. rewrite H. f_equal.
  destruct (Nat.eqb_spec (length (split_dots s)) 4) as [E|E].
  - rewrite E. reflexivity.
  - apply Z.eqb_neq. lia.
Qed.

End IPv4Scan.

(** * IPv4: properties of the validator *)

Section IPv4Properties.

Lemma split_dots_dotted a b c d :
  forallb isdigit a = true -> forallb isdigit b = true ->
  forallb isdigit c = true -> forallb isdigit d = true ->
  split_dots (dotted a b c d) = [a; b; c; d].
Proof.
  intros Ha Hb Hc Hd. unfold dotted.
  rewrite (split_dots_digits a _ Ha). cbn [split_dots].
  change (Ascii.eqb "." ".") with true. cbv iota. cbn [hd tl].
  rewrite (split_dots_digits b _ Hb). cbn [split_dots].
  change (Ascii.eqb "." ".") with true. cbv iota. cbn [hd tl].
  rewrite (split_dots_digits c _ Hc). cbn [split_dots].
  change (Ascii.eqb "." ".") with true. cbv iota. cbn [hd tl].
  rewrite <- (app_nil_r d) at 1.
  rewrite (split_dots_digits d _ Hd). cbn [split_dots hd tl].
  rewrite !app_nil_r. reflexivity.
Qed.

Lemma split_dots_nonempty s : exists seg segs, split_dots s = seg :: segs.
Proof.
  destruct s as [|c s]; cbn [split_dots]; [ eauto |].
  destruct (Ascii.eqb c "."%char); eauto.
Qed.

(** Splitting loses nothing: the segments, joined, give the string
    back. *)
Lemma join_split_dots s : join_dots (split_dots s) = s.
Proof.
  induction s as [|c s IH]; [ reflexivity |].
  cbn [split_dots].
  destruct (split_dots_nonempty s) as (seg & segs & E).
  rewrite E in *. cbn [hd tl].
  destruct (Ascii.eqb c "."%char) eqn:Hc.
  - apply Ascii.eqb_eq in Hc. subst c.
    change (join_dots ([] :: seg :: segs))
      with ("."%char :: join_dots (seg :: segs)).
    now rewrite IH.
  - destruct segs as [|seg' segs].
    + cbn [join_dots] in *. now rewrite IH.
    + change (join_dots ((c :: seg) :: seg' :: segs))
        with (c :: join_dots (seg :: seg' :: segs)).
      now rewrite IH.
Qed.

Lemma octet_ok_isdigit seg : octet_ok seg = true -> forallb isdigit seg = true.
Proof.
  unfold octet_ok. intros H.
  apply andb_prop in H. destruct H as [H _].
  apply andb_prop in H. tauto.
Qed.

(** The grammar, spelled out: [a.b.c.d] with four octets. *)
Lemma spec_ipv4_dotted s :
  spec_ipv4 s = true <->
  exists a b c d,
    s = dotted a b c d
    /\ octet_ok a = true /\ octet_ok b = true
    /\ octet_ok c = true /\ octet_ok d = true.
Proof.
  unfold spec_ipv4. split.
  - intros H. apply andb_prop in H. destruct H as [Hlen Hok].
    apply Nat.eqb_eq in Hlen.
    pose proof (join_split_dots s) as Hj.
    destruct (split_dots s) as [|a [|b [|c [|d [|e l]]]]];
      try discriminate Hlen.
    cbn [forallb] in Hok.
    apply andb_prop in Hok. destruct Hok as [Ha Hok].
    apply andb_prop in Hok. destruct Hok as [Hb Hok].
    apply andb_prop in Hok. destruct Hok as [Hc Hok].
    apply andb_prop in Hok. destruct Hok as [Hd _].
    exists a, b, c, d. repeat split; try assumption.
    symmetry. exact Hj.
  - intros (a & b & c & d & -> & Ha & Hb & Hc & Hd).
    rewrite split_dots_dotted by (apply octet_ok_isdigit; assumption).
    cbn [length Nat.eqb forallb]. rewrite Ha, Hb, Hc, Hd. reflexivity.
Qed.

Lemma dec_value_zero_pad k seg : dec_value (zero_pad k seg) = dec_value seg.
Proof.
  unfold dec_value, zero_pad, dec_value_from.
  rewrite fold_left_app. f_equal.
  induction k as [|k IH]; [ reflexivity |].
  cbn [repeat fold_left]. exact IH.
Qed.

Lemma octet_ok_zero_pad k seg :
  octet_ok seg = true -> octet_ok (zero_pad k seg) = true.
Proof.
  unfold octet_ok. intros H.
  apply andb_prop in H. destruct H as [H Hv].
  apply andb_prop in H. destruct H as [Hne Hd].
  rewrite dec_value_zero_pad, Hv, andb_true_r.
  apply andb_true_intro. split.
  - unfold zero_pad. rewrite length_app.
    destruct seg; [ discriminate |].
    cbn [length]. rewrite Nat.add_succ_r. reflexivity.
  - unfold zero_pad. rewrite forallb_app, Hd, andb_true_r.
    induction k as [|k IH]; [ reflexivity |].
    cbn [repeat forallb]. rewrite IH. reflexivity.
Qed.

Lemma digits_zero_pad k seg :
  forallb isdigit seg = true -> forallb isdigit (zero_pad k seg) = true.
Proof.
  intros Hd. unfold zero_pad. rewrite forallb_app, Hd, andb_true_r.
  induction k as [|k IH]; [ reflexivity |].
  cbn [repeat forallb]. rewrite IH. reflexivity.
Qed.

Lemma no_nul_dotted a b c d :
  forallb isdigit a = true -> forallb isdigit b = true ->
  forallb isdigit c = true -> forallb isdigit d = true ->
  no_nul (dotted a b c d) = true.
Proof.
  intros Ha Hb Hc Hd. unfold dotted.
  repeat (rewrite no_nul_app; cbn [no_nul forallb];
          fold (no_nul b); fold (no_nul c); fold (no_nul d)).
  rewrite (digits_no_nul _ Ha), (digits_no_nul _ Hb),
    (digits_no_nul _ Hc), (digits_no_nul _ Hd).
  reflexivity.
Qed.

Lemma length_dotted a b c d :
  length (dotted a b c d)
  = (length a + length b + length c + length d + 3)%nat.
Proof.
  unfold dotted.
  repeat (rewrite length_app; cbn [length]). lia.
Qed.

Lemma length_zero_pad k seg : length (zero_pad k seg) = (k + length seg)%nat.
Proof. unfold zero_pad. now rewrite length_app, repeat_length. Qed.

End IPv4Properties.

(** * IPv6: the acceptance rule *)

Section IPv6Accept.

Lemma ipv6_accept_spec st :
  ipv6_accept st = true <->
  (has_compression st = true -> final_group_count st < 8)
  /\ (has_compression st = false -> final_group_count st = 8).
Proof.
  unfold ipv6_accept, final_group_count.
  destruct (0 <? xdigits_seen st)%nat, (has_compression st); cbn [andb];
    repeat match goal with
      | |- context [?a >? ?b] => destruct (Z.gtb_spec a b)
      | |- context [?a >=? ?b] => destruct (Z.geb_spec a b)
      | |- context [?a =? ?b] => destruct (Z.eqb_spec a b)
      end; cbn [negb];
    (split;
     [ intros E; try discriminate E;
       split; intros E'; try discriminate E'; lia
     | intros [E1 E2]; try reflexivity;
       try (specialize (E1 eq_refl); lia);
       try (specialize (E2 eq_refl); lia) ]).
Qed.

End IPv6Accept.

(** * IPv6: the scan *)

Section IPv6Scan.

Variable str : list ascii.
Variable src_endp : nat.

(** The three ways an iteration goes on to the next one. *)
Lemma ipv6_step_Continue st st' :
  ipv6_step str src_endp st = Continue st' ->
  let ch := char_at str (src st) in
  (hex_digit_value ch >= 0 /\ xdigits_seen st <> 4%nat
   /\ st' = mkScan (S (src st)) (group_count st) (has_compression st)
                   (curtok st) (S (xdigits_seen st))
                   (uint_shl4_or (val st) (hex_digit_value ch)))
  \/ (Ascii.eqb ch ":"%char = true /\ xdigits_seen st = O
      /\ has_compression st = false
      /\ st' = mkScan (S (src st)) (group_count st) true (S (src st))
                      O (val st))
  \/ (Ascii.eqb ch ":"%char = true /\ xdigits_seen st <> O
      /\ S (src st) <> src_endp /\ group_count st + 1 <= 8
      /\ st' = mkScan (S (src st)) (group_count st + 1) (has_compression st)
                      (S (src st)) O 0).
Proof.
  unfold ipv6_step. cbv zeta.
  destruct (Z.geb_spec (hex_digit_value (char_at str (src st))) 0) as [Hh|Hh].
  - destruct (Nat.eqb_spec (xdigits_seen st) 4) as [E|E]; [ discriminate |].
    destruct (uint_shl4_or _ _ >? 65535); [ discriminate |].
    intros H. injection H as <-. left. repeat split; [ lia | exact E ].
  - destruct (Ascii.eqb (char_at str (src st)) ":"%char) eqn:Hc.
    + destruct (Nat.eqb_spec (xdigits_seen st) 0) as [E|E].
      * destruct (has_compression st) eqn:Hcomp; [ discriminate |].
        intros H. injection H as <-. right. left.
        rewrite E. repeat split.
      * destruct (Nat.eqb_spec (S (src st)) src_endp) as [E'|E'];
          [ discriminate |].
        destruct (Z.gtb_spec (group_count st + 1) 8) as [G|G];
          [ discriminate |].
        intros H. injection H as <-. right. right.
        repeat split; [ exact E | exact E' | lia ].
    + destruct (Ascii.eqb (char_at str (src st)) "."%char
                && (0 <? xdigits_seen st)%nat); [| discriminate ].
      destruct (count_dots _ _ _ _) as [dots|]; [| discriminate ].
      destruct (negb (dots =? 3)); [ discriminate |].
      destruct (negb (is_valid_ipv4_address _)); discriminate.
Qed.

(** The only way an iteration leaves the loop with the scan still
    alive: the IPv4-suffix branch. *)
Lemma ipv6_step_Break st st' :
  ipv6_step str src_endp st = Break st' ->
  Ascii.eqb (char_at str (src st)) "."%char = true
  /\ xdigits_seen st <> O
  /\ count_dots str (src_endp - curtok st) (curtok st) 0 = Some 3
  /\ is_valid_ipv4_address (Some (skipn (curtok st) str)) = true
  /\ st' = mkScan (S (src st)) (group_count st + 2) (has_compression st)
                  (curtok st) O (val st).
Proof.
  unfold ipv6_step. cbv zeta.
  destruct (hex_digit_value (char_at str (src st)) >=? 0).
  - destruct (xdigits_seen st =? 4)%nat; [ discriminate |].
    destruct (uint_shl4_or _ _ >? 65535); discriminate.
  - destruct (Ascii.eqb (char_at str (src st)) ":"%char).
    + destruct (xdigits_seen st =? 0)%nat.
      * destruct (has_compression st); discriminate.
      * destruct (S (src st) =? src_endp)%nat; [ discriminate |].
        destruct (group_count st + 1 >? 8); discriminate.
    + destruct (Ascii.eqb (char_at str (src st)) "."%char) eqn:Hdot;
        [| discriminate ].
      destruct (Nat.ltb_spec 0 (xdigits_seen st)) as [Hx|Hx];
        [| discriminate ].
      cbn [andb].
      destruct (count_dots _ _ _ _) as [dots|]; [| discriminate ].
      destruct (Z.eqb_spec dots 3) as [->|]; [| discriminate ].
      cbn [negb].
      destruct (is_valid_ipv4_address _); [| discriminate ].
      cbn [negb]. intros H. injection H as <-.
      repeat split. lia.
Qed.

(** No more than four hex digits are ever pending. *)
Lemma scanning_xdigits st :
  scanning str src_endp st -> (xdigits_seen st <= 4)%nat.
Proof.
  induction 1 as [src0 | st st' _ IH Hstep].
  - cbn. lia.
  - apply ipv6_step_Continue in Hstep.
    destruct Hstep as [(_ & Hx & ->) | [(_ & _ & _ & ->) | (_ & _ & _ & _ & ->)]];
      cbn; lia.
Qed.

(** The dot-counting loop succeeds only over digits and dots. *)
Lemma count_dots_all n : forall p dots r,
  count_dots str n p dots = Some r ->
  forall k, (p <= k < p + n)%nat -> digit_or_dot (char_at str k) = true.
Proof.
  induction n as [|n IH]; intros p dots r H k Hk; [ lia |].
  cbn [count_dots] in H.
  destruct (Nat.eq_dec k p) as [->|Hne].
  - unfold digit_or_dot.
    destruct (Ascii.eqb (char_at str p) "."%char); [ reflexivity |].
    destruct (isdigit (char_at str p)); [ reflexivity | discriminate ].
  - destruct (Ascii.eqb (char_at str p) "."%char).
    + apply (IH _ _ _ H). lia.
    + destruct (isdigit (char_at str p)); [| discriminate ].
      apply (IH _ _ _ H). lia.
Qed.

End IPv6Scan.

Section IPv6Rejections.

Variable str : list ascii.
Variable src_endp : nat.

Lemma ipv6_loop_S n st :
  ipv6_loop str src_endp (S n) st =
  match ipv6_step str src_endp st with
  | Continue st' => ipv6_loop str src_endp n st'
  | Break st' => Some st'
  | Reject => None
  end.
Proof. reflexivity. Qed.

(** Five hex digits in a row at index [p], with no dot before them:
    the loop cannot get past them. *)
Lemma loop_rejects_fifth_digit p :
  (forall j, (j < p)%nat -> Ascii.eqb (char_at str j) "."%char = false) ->
  (forall j, (p <= j < p + 5)%nat -> hex_digit_value (char_at str j) >= 0) ->
  (p + 5 <= src_endp)%nat ->
  forall n st,
    (src st + n = src_endp)%nat ->
    (xdigits_seen st <= 4)%nat ->
    (src st - p <= xdigits_seen st)%nat ->
    ipv6_loop str src_endp n st = None.
Proof.
  intros Hnodot Hhex Hend.
  induction n as [|n IH]; intros st Hn Hx Hp; [ lia |].
  rewrite ipv6_loop_S.
  destruct (ipv6_step str src_endp st) as [st'|st'|] eqn:Hstep;
    [| | reflexivity ].
  - apply ipv6_step_Continue in Hstep. cbv zeta in Hstep.
    destruct Hstep as [(_ & Hx4 & ->)
                      | [(Hc & _ & _ & ->) | (Hc & _ & _ & _ & ->)]].
    + apply IH; fields; lia.
    + destruct (Nat.lt_ge_cases (src st) p) as [Hlt|Hge].
      * apply IH; fields; lia.
      * rewrite (hex_not_colon _ (Hhex (src st) ltac:(lia))) in Hc.
        discriminate.
    + destruct (Nat.lt_ge_cases (src st) p) as [Hlt|Hge].
      * apply IH; fields; lia.
      * rewrite (hex_not_colon _ (Hhex (src st) ltac:(lia))) in Hc.
        discriminate.
  - apply ipv6_step_Break in Hstep. destruct Hstep as (Hdot & _).
    destruct (Nat.lt_ge_cases (src st) p) as [Hlt|Hge].
    + rewrite (Hnodot _ Hlt) in Hdot. discriminate.
    + rewrite (hex_not_dot _ (Hhex (src st) ltac:(lia))) in Hdot.
      discriminate.
Qed.

(** Two compression markers, at indices [i] and [j], both inside the
    window: the loop cannot get past the second. *)
Lemma loop_rejects_second_marker i j :
  (i < j)%nat ->
  Ascii.eqb (char_at str i) ":"%char = true ->
  Ascii.eqb (char_at str (S i)) ":"%char = true ->
  Ascii.eqb (char_at str j) ":"%char = true ->
  Ascii.eqb (char_at str (S j)) ":"%char = true ->
  (S j < src_endp)%nat ->
  forall n st,
    (src st + n = src_endp)%nat ->
    (src st <= S j)%nat ->
    (curtok st <= src st)%nat ->
    ((S (S i) <= src st)%nat -> has_compression st = true) ->
    (forall k, src st = S k -> Ascii.eqb (char_at str k) ":"%char = true ->
               xdigits_seen st = O) ->
    ipv6_loop str src_endp n st = None.
Proof.
  intros Hij Hi Hi' Hj Hj' Hend.
  induction n as [|n IH]; intros st Hn Hsrc Htok Hcomp Hsep; [ lia |].
  rewrite ipv6_loop_S.
  destruct (ipv6_step str src_endp st) as [st'|st'|] eqn:Hstep;
    [| | reflexivity ].
  - apply ipv6_step_Continue in Hstep. cbv zeta in Hstep.
    destruct Hstep as [(Hh & _ & ->)
                      | [(Hc & Hx & Hnc & ->) | (Hc & Hx & _ & _ & ->)]].
    + (* a hex digit: not one of the four colons *)
      apply hex_not_colon in Hh.
      assert (src st <> S j) by (intros E; rewrite E in Hh; congruence).
      assert (src st <> S i) by (intros E; rewrite E in Hh; congruence).
      apply IH; fields; try lia.
      * intros Hle. apply Hcomp. lia.
      * intros k Hk Hck. injection Hk as <-. congruence.
    + (* a colon taken as the compression marker *)
      assert (src st <> S j).
      { intros E. rewrite Hcomp in Hnc by lia. discriminate. }
      apply IH; fields; try lia; auto.
    + (* a colon closing a group *)
      assert (src st <> S j) by (intros E; apply Hx, (Hsep j E Hj)).
      assert (src st <> S i) by (intros E; apply Hx, (Hsep i E Hi)).
      apply IH; fields; try lia; auto.
      intros Hle. apply Hcomp. lia.
  - (* the IPv4-suffix branch sees the second marker ahead *)
    apply ipv6_step_Break in Hstep.
    destruct Hstep as (_ & _ & Hdots & _).
    pose proof (count_dots_all str _ _ _ _ Hdots (S j) ltac:(lia)) as Hd.
    unfold digit_or_dot in Hd.
    apply Ascii.eqb_eq in Hj'. rewrite Hj' in Hd. discriminate.
Qed.

(** The recursion argument [n] is the distance from [src] to
    [src_endp]: the loop is left with the scan alive either because
    [src] has reached [src_endp], or through the [break] of the
    IPv4-suffix branch, taken inside the window. *)
Lemma ipv6_loop_exit n : forall st st',
  (src st + n = src_endp)%nat ->
  ipv6_loop str src_endp n st = Some st' ->
  src st' = src_endp
  \/ exists st0, (src st0 < src_endp)%nat
                 /\ ipv6_step str src_endp st0 = Break st'.
Proof.
  induction n as [|n IH]; intros st st' Hn H.
  - cbn in H. injection H as <-. left. lia.
  - rewrite ipv6_loop_S in H.
    destruct (ipv6_step str src_endp st) as [st1|st1|] eqn:Hstep;
      [| | discriminate ].
    + apply (IH st1); [| exact H ].
      apply ipv6_step_Continue in Hstep. cbv zeta in Hstep.
      destruct Hstep as [(_ & _ & ->)
                        | [(_ & _ & _ & ->) | (_ & _ & _ & _ & ->)]];
        fields; lia.
    + injection H as <-. right. exists st. split; [ lia | exact Hstep ].
Qed.

End IPv6Rejections.

Section IPv6TopLevel.

Lemma strnlen_ge s : forall k m,
  (forall j, (j < k)%nat -> Ascii.eqb (char_at s j) NUL = false) ->
  (k <= m)%nat -> (k <= strnlen s m)%nat.
Proof.
  induction s as [|c s IH]; intros k m Hk Hm.
  - destruct k as [|k]; [ lia |].
    specialize (Hk O ltac:(lia)). discriminate.
  - destruct k as [|k]; [ lia |].
    destruct m as [|m]; [ lia |].
    cbn [strnlen].
    pose proof (Hk O ltac:(lia)) as H0. unfold char_at in H0. cbn in H0.
    rewrite H0. apply le_n_S. apply IH; [| lia ].
    intros j Hj. apply (Hk (S j)). lia.
Qed.

Lemma char_at_in_bounds s j c :
  char_at s j = c -> Ascii.eqb c NUL = false -> (j < length s)%nat.
Proof.
  intros Hc Hn. destruct (Nat.lt_ge_cases j (length s)) as [H|H]; [ exact H |].
  unfold char_at in Hc. rewrite nth_overflow in Hc by exact H.
  subst c. discriminate.
Qed.

Lemma hex_not_nul c : hex_digit_value c >= 0 -> Ascii.eqb c NUL = false.
Proof.
  destruct c as [[] [] [] [] [] [] [] []]; vm_compute; congruence.
Qed.

Lemma forallb_char_at (P : ascii -> bool) pre rest j :
  forallb P pre = true -> (j < length pre)%nat ->
  P (char_at (pre ++ rest) j) = true.
Proof.
  intros H Hj. unfold char_at. rewrite app_nth1 by exact Hj.
  rewrite forallb_forall in H. apply H. apply nth_In. exact Hj.
Qed.

Lemma forallb_char_at_mid (P : ascii -> bool) pre mid rest j :
  forallb P mid = true -> (length pre <= j < length pre + length mid)%nat ->
  P (char_at (pre ++ mid ++ rest) j) = true.
Proof.
  intros H Hj. unfold char_at. rewrite app_nth2 by lia.
  apply (forallb_char_at P mid rest (j - length pre) H). lia.
Qed.

(** How the main loop is entered. *)
Lemma ipv6_scan_entry s st :
  ipv6_scan s = Some st ->
  let src_endp := strnlen s INET6_ADDRSTRLEN in
  exists src0,
    (src0 < src_endp)%nat
    /\ ((src0 = 0%nat /\ Ascii.eqb (char_at s 0) ":"%char = false)
        \/ (src0 = 1%nat /\ Ascii.eqb (char_at s 0) ":"%char = true
            /\ Ascii.eqb (char_at s 1) ":"%char = true))
    /\ ipv6_loop s src_endp (src_endp - src0) (mkScan src0 0 false src0 O 0)
       = Some st.
Proof.
  unfold ipv6_scan. cbv zeta.
  destruct (Ascii.eqb (char_at s 0) NUL); [ discriminate |].
  destruct (Nat.eqb_spec 0 (strnlen s INET6_ADDRSTRLEN)) as [E|E];
    [ discriminate |].
  destruct (Ascii.eqb (char_at s 0) ":"%char) eqn:H0.
  - destruct (Nat.eqb_spec 1 (strnlen s INET6_ADDRSTRLEN)) as [E1|E1];
      [ discriminate |].
    destruct (Ascii.eqb (char_at s 1) ":"%char) eqn:H1; [| discriminate ].
    cbn [orb negb]. intros H. exists 1%nat.
    split; [ lia | split; [ right; auto | exact H ] ].
  - intros H. exists 0%nat.
    split; [ lia | split; [ left; auto | exact H ] ].
Qed.

(** Five hex digits in a row inside the window, with no dot before
    them, cause rejection. *)
Lemma ipv6_rejects_fifth_hex_digit pre h post :
  no_nul pre = true ->
  forallb (fun c => negb (Ascii.eqb c "."%char)) pre = true ->
  length h = 5%nat -> forallb is_xdigit h = true ->
  (length pre + 5 <= INET6_ADDRSTRLEN)%nat ->
  is_valid_ipv6_address (Some (pre ++ h ++ post)) = false.
Proof.
  intros Hnul Hnodot Hlen Hhex Hwin.
  assert (forall j, (j < length pre)%nat ->
            Ascii.eqb (char_at (pre ++ h ++ post) j) "."%char = false) as Hd.
  { intros j Hj. apply negb_true_iff.
    apply (forallb_char_at (fun c => negb (Ascii.eqb c "."%char)));
      assumption. }
  assert (forall j, (length pre <= j < length pre + 5)%nat ->
            hex_digit_value (char_at (pre ++ h ++ post) j) >= 0) as Hx.
  { intros j Hj.
    pose proof (forallb_char_at_mid is_xdigit pre h post j Hhex
                  ltac:(lia)) as H.
    unfold is_xdigit in H. apply Z.geb_le in H. lia. }
  assert (length pre + 5 <= strnlen (pre ++ h ++ post) INET6_ADDRSTRLEN)%nat
    as Hend.
  { apply strnlen_ge; [| exact Hwin ].
    intros j Hj. destruct (Nat.lt_ge_cases j (length pre)) as [Hlt|Hge].
    - apply negb_true_iff.
      apply (forallb_char_at (fun c => negb (Ascii.eqb c NUL)));
        assumption.
    - apply hex_not_nul, Hx. lia. }
  unfold is_valid_ipv6_address.
  destruct (ipv6_scan (pre ++ h ++ post)) as [st|] eqn:Hscan;
    [| reflexivity ].
  apply ipv6_scan_entry in Hscan. cbv zeta in Hscan.
  destruct Hscan as (src0 & Hlt & Hsrc0 & Hloop).
  rewrite (loop_rejects_fifth_digit _ _ (length pre) Hd Hx Hend) in Hloop.
  - discriminate.
  - fields. lia.
  - fields. lia.
  - fields. destruct Hsrc0 as [[-> _] | (-> & H0 & _)]; [ lia |].
    destruct (length pre) as [|p] eqn:Hp; [| cbn; lia ].
    rewrite (hex_not_colon _ (Hx O ltac:(lia))) in H0. discriminate.
Qed.

(** Two compression markers inside the window cause rejection; the
    markers may overlap, as in three colons in a row. *)
Lemma ipv6_rejects_second_marker s i j :
  no_nul s = true ->
  (i < j)%nat ->
  char_at s i = ":"%char -> char_at s (S i) = ":"%char ->
  char_at s j = ":"%char -> char_at s (S j) = ":"%char ->
  (S j < INET6_ADDRSTRLEN)%nat ->
  is_valid_ipv6_address (Some s) = false.
Proof.
  intros Hnul Hij Hi Hi' Hj Hj' Hwin.
  assert (S j < strnlen s INET6_ADDRSTRLEN)%nat as Hend.
  { rewrite (strnlen_no_nul _ _ Hnul).
    pose proof (char_at_in_bounds s (S j) _ Hj' eq_refl). lia. }
  unfold is_valid_ipv6_address.
  destruct (ipv6_scan s) as [st|] eqn:Hscan; [| reflexivity ].
  apply ipv6_scan_entry in Hscan. cbv zeta in Hscan.
  destruct Hscan as (src0 & Hlt & Hsrc0 & Hloop).
  rewrite (loop_rejects_second_marker s _ i j Hij) in Hloop;
    try (apply Ascii.eqb_eq; assumption); try exact Hend; fields.
  - discriminate.
  - lia.
  - destruct Hsrc0 as [[-> _] | (-> & _)]; lia.
  - lia.
  - destruct Hsrc0 as [[-> _] | (-> & _)]; lia.
  - intros k Hk _. reflexivity.
Qed.

(** The states of a run are [scanning] states: a scan that is not
    rejected ends in one, or in the state the IPv4-suffix branch
    makes out of one. *)
Lemma ipv6_loop_scanning str src_endp n : forall st st',
  scanning str src_endp st ->
  ipv6_loop str src_endp n st = Some st' ->
  scanning str src_endp st'
  \/ exists st0, scanning str src_endp st0
                 /\ ipv6_step str src_endp st0 = Break st'.
Proof.
  induction n as [|n IH]; intros st st' Hs H.
  - cbn in H. injection H as <-. left. exact Hs.
  - rewrite ipv6_loop_S in H.
    destruct (ipv6_step str src_endp st) as [st1|st1|] eqn:Hstep;
      [| | discriminate ].
    + apply (IH st1); [| exact H ].
      eapply scanning_next; eassumption.
    + injection H as <-. right. exists st. split; assumption.
Qed.

Lemma ipv6_scan_scanning s st :
  ipv6_scan s = Some st ->
  let src_endp := strnlen s INET6_ADDRSTRLEN in
  scanning s src_endp st
  \/ exists st0, scanning s src_endp st0
                 /\ ipv6_step s src_endp st0 = Break st.
Proof.
  intros Hscan. apply ipv6_scan_entry in Hscan. cbv zeta in *.
  destruct Hscan as (src0 & _ & _ & Hloop).
  eapply ipv6_loop_scanning; [| exact Hloop ].
  apply scanning_start.
Qed.

(** The group left pending when a scan ends has 1 to 4 digits. *)
Lemma ipv6_scan_pending_group s st :
  ipv6_scan s = Some st ->
  (xdigits_seen st <= 4)%nat.
Proof.
  intros Hscan. apply ipv6_scan_scanning in Hscan. cbv zeta in Hscan.
  destruct Hscan as [Hs | (st0 & _ & Hb)].
  - exact (scanning_xdigits _ _ _ Hs).
  - apply ipv6_step_Break in Hb. destruct Hb as (_ & _ & _ & _ & ->).
    fields. lia.
Qed.

(** Once a compression marker has been taken, a colon met with no hex
    digit pending is refused. *)
Lemma ipv6_step_second_marker str src_endp st :
  char_at str (src st) = ":"%char ->
  xdigits_seen st = O -> has_compression st = true ->
  ipv6_step str src_endp st = Reject.
Proof.
  intros Hc Hx Hcomp. unfold ipv6_step. cbv zeta.
  rewrite Hc, Hx, Hcomp. reflexivity.
Qed.

(** The compression flag is raised by the marker and never lowered. *)
Lemma ipv6_step_compression_kept str src_endp st st' :
  ipv6_step str src_endp st = Continue st' ->
  has_compression st = true -> has_compression st' = true.
Proof.
  intros Hstep Hc. apply ipv6_step_Continue in Hstep. cbv zeta in Hstep.
  destruct Hstep as [(_ & _ & ->)
                    | [(_ & _ & _ & ->) | (_ & _ & _ & _ & ->)]];
    fields; auto.
Qed.

End IPv6TopLevel.

(** * IPv6: the embedded IPv4 suffix *)

Section IPv4Suffix.

Lemma dot_count_cons c rest :
  dot_count (c :: rest)
  = (if Ascii.eqb c "."%char then 1 else 0) + dot_count rest.
Proof.
  unfold dot_count. cbn [filter].
  destruct (Ascii.eqb c "."%char); cbn [length]; lia.
Qed.

(** The dot-counting loop over a whole remainder [rest]. *)
Lemma count_dots_spec rest : forall pre dots,
  count_dots (pre ++ rest) (length rest) (length pre) dots
  = if forallb digit_or_dot rest then Some (dots + dot_count rest) else None.
Proof.
  induction rest as [|c rest IH]; intros pre dots.
  - cbn. f_equal. unfold dot_count. cbn. lia.
  - cbn [length count_dots forallb]. rewrite char_at_app.
    specialize (IH (pre ++ [c])).
    rewrite <- app_assoc, length_app in IH. cbn [app length] in IH.
    rewrite Nat.add_1_r in IH.
    rewrite dot_count_cons. unfold digit_or_dot at 1.
    destruct (Ascii.eqb c "."%char); cbn [orb andb].
    + rewrite IH. destruct (forallb digit_or_dot rest); [| reflexivity ].
      f_equal; lia.
    + destruct (isdigit c); cbn [negb andb]; [| reflexivity ].
      rewrite IH. destruct (forallb digit_or_dot rest); [| reflexivity ].
      f_equal; lia.
Qed.

(** When the whole string fits the window, a dot met by the main loop
    is decided by the remainder of the string from the current token:
    digits and dots only, exactly three dots, accepted by the IPv4
    validator, and hex digits pending. *)
Lemma ipv6_step_dot_in_window s st :
  no_nul s = true -> (length s <= INET6_ADDRSTRLEN)%nat ->
  (curtok st <= length s)%nat ->
  char_at s (src st) = "."%char ->
  ipv6_step s (strnlen s INET6_ADDRSTRLEN) st
  = if (0 <? xdigits_seen st)%nat
       && forallb digit_or_dot (skipn (curtok st) s)
       && (dot_count (skipn (curtok st) s) =? 3)
       && is_valid_ipv4_address (Some (skipn (curtok st) s))
    then Break (mkScan (S (src st)) (group_count st + 2) (has_compression st)
                       (curtok st) O (val st))
    else Reject.
Proof.
  intros Hnul Hlen Htok Hdot.
  rewrite (strnlen_no_nul _ _ Hnul), Nat.min_l by exact Hlen.
  unfold ipv6_step. cbv zeta. rewrite Hdot.
  change (hex_digit_value "." >=? 0) with false.
  change (Ascii.eqb "." ":") with false.
  change (Ascii.eqb "." ".") with true. cbv iota. cbn [andb].
  destruct (0 <? xdigits_seen st)%nat; cbn [andb]; [| reflexivity ].
  pose proof (count_dots_spec (skipn (curtok st) s) (firstn (curtok st) s) 0)
    as Hcd.
  rewrite firstn_skipn, length_skipn, length_firstn, Nat.min_l in Hcd
    by exact Htok.
  rewrite Hcd.
  destruct (forallb digit_or_dot (skipn (curtok st) s)); cbn [andb];
    [| reflexivity ].
  rewrite Z.add_0_l.
  destruct (dot_count (skipn (curtok st) s) =? 3); cbn [negb andb];
    [| reflexivity ].
  destruct (is_valid_ipv4_address (Some (skipn (curtok st) s)));
    reflexivity.
Qed.

(** A dot with no hex digit pending is refused, whatever the rest. *)
Lemma ipv6_step_dot_no_digits s src_endp st :
  char_at s (src st) = "."%char -> xdigits_seen st = O ->
  ipv6_step s src_endp st = Reject.
Proof.
  intros Hdot Hx. unfold ipv6_step. cbv zeta. rewrite Hdot, Hx.
  reflexivity.
Qed.

End IPv4Suffix.

(** * IPv4: leaving the loop by its bound *)

Section IPv4Bound.

(** When the loop uses up its iterations before the terminator, it
    answers true only if the dots it went through, added to the
    octets counted before, make four. *)
Lemma ipv4_loop_bound_exit n : forall rest pre cnt start,
  no_nul (pre ++ rest) = true -> (n <= length rest)%nat ->
  ipv4_loop (pre ++ rest) n (length pre) cnt start = true ->
  cnt + dot_count (firstn n rest) = 4.
Proof.
  induction n as [|n IH]; intros rest pre cnt start Hnul Hn H.
  - cbn in H. apply Z.eqb_eq in H. unfold dot_count. cbn. lia.
  - destruct rest as [|c rest]; [ cbn in Hn; lia |].
    cbn [length] in Hn.
    rewrite ipv4_loop_S in H. cbv zeta in H. rewrite char_at_app in H.
    assert (Ascii.eqb c NUL = false) as Hc0.
    { rewrite no_nul_app in Hnul. apply andb_prop in Hnul.
      destruct Hnul as [_ Hnul]. exact (no_nul_head _ _ Hnul). }
    rewrite Hc0, orb_false_r in H.
    cbn [firstn]. rewrite dot_count_cons.
    specialize (IH rest (pre ++ [c])).
    rewrite <- app_assoc, length_app in IH. cbn [app length] in IH.
    rewrite Nat.add_1_r in IH.
    destruct (Ascii.eqb c "."%char).
    + destruct (length pre =? start)%nat; [ discriminate |].
      destruct (parse_int _ _ _) as [v|]; [| discriminate ].
      destruct (v >? 255); [ discriminate |].
      specialize (IH (cnt + 1) _ Hnul ltac:(lia) H). lia.
    + destruct (negb (isdigit c)); [ discriminate |].
      specialize (IH cnt _ Hnul ltac:(lia) H). lia.
Qed.

Lemma dot_count_nonneg s : 0 <= dot_count s.
Proof. unfold dot_count. lia. Qed.

Lemma dot_count_firstn n s : dot_count (firstn n s) <= dot_count s.
Proof.
  revert n. induction s as [|c s IH]; intros [|n]; cbn [firstn];
    rewrite ?dot_count_cons; change (dot_count []) with 0;
    try pose proof (dot_count_nonneg s); try specialize (IH n);
    try destruct (Ascii.eqb c "."%char); lia.
Qed.

(** A string with at most three dots is accepted only through the
    terminator: it fits the scan and is a dotted quad. *)
Lemma ipv4_valid_three_dots r :
  no_nul r = true -> dot_count r <= 3 ->
  is_valid_ipv4_address (Some r) = true ->
  (length r <= MAX_SIZE_IPV4)%nat /\ spec_ipv4 r = true.
Proof.
  intros Hnul Hdots Hv.
  destruct (Nat.le_gt_cases (length r) MAX_SIZE_IPV4) as [Hle|Hgt].
  - split; [ exact Hle |]. now rewrite <- ipv4_decides_grammar.
  - exfalso. unfold is_valid_ipv4_address in Hv. cbv zeta in Hv.
    rewrite (strnlen_no_nul _ _ Hnul), Nat.min_r in Hv by lia.
    pose proof (ipv4_loop_bound_exit (S MAX_SIZE_IPV4) r [] 0 0%nat Hnul
                  ltac:(lia) Hv) as Hb.
    pose proof (dot_count_firstn (S MAX_SIZE_IPV4) r). lia.
Qed.

End IPv4Bound.

Section IPv4SuffixInWindow.

Lemma no_nul_skipn k s : no_nul s = true -> no_nul (skipn k s) = true.
Proof.
  intros H. rewrite <- (firstn_skipn k s), no_nul_app in H.
  apply andb_prop in H. tauto.
Qed.

(** When the whole string fits the window, an accepted suffix is a
    dotted quad running to the end of the string, and it is counted
    as two groups. *)
Lemma ipv6_suffix_in_window s st st' :
  no_nul s = true -> (length s <= INET6_ADDRSTRLEN)%nat ->
  (curtok st <= length s)%nat ->
  ipv6_step s (strnlen s INET6_ADDRSTRLEN) st = Break st' ->
  spec_ipv4 (skipn (curtok st) s) = true
  /\ group_count st' = group_count st + 2
  /\ xdigits_seen st' = O.
Proof.
  intros Hnul Hlen Htok Hstep.
  pose proof (ipv6_step_Break _ _ _ _ Hstep) as (Hdot & _).
  apply Ascii.eqb_eq in Hdot.
  rewrite (ipv6_step_dot_in_window s st Hnul Hlen Htok Hdot) in Hstep.
  destruct ((0 <? xdigits_seen st)%nat
            && forallb digit_or_dot (skipn (curtok st) s)
            && (dot_count (skipn (curtok st) s) =? 3)
            && is_valid_ipv4_address (Some (skipn (curtok st) s))) eqn:E;
    [| discriminate ].
  injection Hstep as <-. fields.
  apply andb_prop in E. destruct E as [E Hv].
  apply andb_prop in E. destruct E as [_ Hd].
  apply Z.eqb_eq in Hd.
  split; [| split; reflexivity ].
  apply ipv4_valid_three_dots; [ now apply no_nul_skipn | lia | exact Hv ].
Qed.

End IPv4SuffixInWindow.

(** * IPv6: runs of plain groups *)

Section IPv6Groups.

Lemma uint_shl4_or_bound v d k :
  0 <= k <= 3 -> 0 <= v < 16 ^ k -> 0 <= d <= 15 ->
  0 <= uint_shl4_or v d < 16 ^ (k + 1).
Proof.
  intros Hk Hv Hd. unfold uint_shl4_or.
  rewrite Z.shiftl_mul_pow2 by lia. change (2 ^ 4) with 16.
  assert (16 ^ k <= 16 ^ 3) by (apply Z.pow_le_mono_r; lia).
  change (16 ^ 3) with 4096 in *.
  rewrite Z.mod_small by (change (2 ^ 32) with 4294967296; lia).
  rewrite Z.pow_add_r by lia. change (16 ^ 1) with 16.
  pose proof (Z.add_lor_land (v * 16) d) as Hsum.
  assert (0 <= Z.land (v * 16) d) by (apply Z.land_nonneg; lia).
  assert (0 <= Z.lor (v * 16) d) by (apply Z.lor_nonneg; lia).
  lia.
Qed.

Variable str : list ascii.
Variable src_endp : nat.

(** A hex digit with fewer than four pending. *)
Lemma ipv6_step_xdigit st :
  is_xdigit (char_at str (src st)) = true ->
  (xdigits_seen st < 4)%nat ->
  0 <= val st < 16 ^ Z.of_nat (xdigits_seen st) ->
  exists v,
    0 <= v < 16 ^ Z.of_nat (S (xdigits_seen st))
    /\ ipv6_step str src_endp st
       = Continue (mkScan (S (src st)) (group_count st) (has_compression st)
                          (curtok st) (S (xdigits_seen st)) v).
Proof.
  intros Hh Hx Hv. unfold ipv6_step. cbv zeta.
  unfold is_xdigit in Hh. rewrite Hh.
  destruct (Nat.eqb_spec (xdigits_seen st) 4) as [E|_]; [ lia |].
  pose proof (hex_digit_value_range (char_at str (src st))) as Hr.
  apply Z.geb_le in Hh.
  pose proof (uint_shl4_or_bound (val st) (hex_digit_value (char_at str (src st)))
                (Z.of_nat (xdigits_seen st)) ltac:(lia) Hv ltac:(lia)) as Hb.
  assert (16 ^ (Z.of_nat (xdigits_seen st) + 1) <= 16 ^ 4)
    by (apply Z.pow_le_mono_r; lia).
  change (16 ^ 4) with 65536 in *.
  destruct (Z.gtb_spec (uint_shl4_or (val st)
                          (hex_digit_value (char_at str (src st)))) 65535);
    [ lia |].
  eexists. split; [| reflexivity ].
  rewrite Nat2Z.inj_succ. unfold Z.succ. exact Hb.
Qed.

(** A colon closing a pending group. *)
Lemma ipv6_step_close st :
  char_at str (src st) = ":"%char ->
  xdigits_seen st <> O -> S (src st) <> src_endp ->
  group_count st + 1 <= 8 ->
  ipv6_step str src_endp st
  = Continue (mkScan (S (src st)) (group_count st + 1) (has_compression st)
                     (S (src st)) O 0).
Proof.
  intros Hc Hx Hend Hg. unfold ipv6_step. cbv zeta. rewrite Hc.
  change (hex_digit_value ":" >=? 0) with false.
  change (Ascii.eqb ":" ":") with true. cbv iota.
  destruct (Nat.eqb_spec (xdigits_seen st) 0); [ contradiction |].
  destruct (Nat.eqb_spec (S (src st)) src_endp); [ contradiction |].
  destruct (Z.gtb_spec (group_count st + 1) 8); [ lia | reflexivity ].
Qed.

(** A colon met with nothing pending: the compression marker. *)
Lemma ipv6_step_compress st :
  char_at str (src st) = ":"%char ->
  xdigits_seen st = O -> has_compression st = false ->
  ipv6_step str src_endp st
  = Continue (mkScan (S (src st)) (group_count st) true (S (src st))
                     O (val st)).
Proof.
  intros Hc Hx Hnc. unfold ipv6_step. cbv zeta. rewrite Hc, Hx, Hnc.
  reflexivity.
Qed.

(** A run of hex digits that fits the group. *)
Lemma ipv6_loop_hex_run g : forall pre rest,
  str = pre ++ g ++ rest ->
  forallb is_xdigit g = true ->
  forall n st,
    src st = length pre ->
    (xdigits_seen st + length g <= 4)%nat ->
    0 <= val st < 16 ^ Z.of_nat (xdigits_seen st) ->
    exists v,
      0 <= v < 16 ^ Z.of_nat (xdigits_seen st + length g)
      /\ ipv6_loop str src_endp (length g + n) st
         = ipv6_loop str src_endp n
             (mkScan (src st + length g) (group_count st)
                     (has_compression st) (curtok st)
                     (xdigits_seen st + length g) v).
Proof.
  induction g as [|c g IH]; intros pre rest Hstr Hhex n st Hsrc Hx Hv.
  - exists (val st). cbn [length]. rewrite !Nat.add_0_r.
    split; [ exact Hv |]. destruct st; reflexivity.
  - cbn [length] in *. cbn [forallb] in Hhex.
    apply andb_prop in Hhex. destruct Hhex as [Hc Hg].
    cbn [Nat.add]. rewrite ipv6_loop_S.
    assert (char_at str (src st) = c) as Hch
        by (rewrite Hstr, Hsrc; apply char_at_app).
    destruct (ipv6_step_xdigit st) as (v1 & Hv1 & ->);
      [ rewrite Hch; exact Hc | lia | exact Hv |].
    destruct (IH (pre ++ [c]) rest) with
      (n := n)
      (st := mkScan (S (src st)) (group_count st) (has_compression st)
                    (curtok st) (S (xdigits_seen st)) v1)
      as (v & Hvb & Hloop).
    + rewrite Hstr, <- app_assoc. reflexivity.
    + exact Hg.
    + fields. rewrite length_app, Hsrc. cbn [length]. lia.
    + fields. lia.
    + fields. exact Hv1.
    + fields. exists v. rewrite Hloop.
      replace (S (xdigits_seen st) + length g)%nat
        with (xdigits_seen st + S (length g))%nat in * by lia.
      replace (S (src st) + length g)%nat
        with (src st + S (length g))%nat by lia.
      split; [ exact Hvb | reflexivity ].
Qed.

Lemma hextet_spec g :
  hextet g = true ->
  (1 <= length g <= 4)%nat /\ forallb is_xdigit g = true.
Proof.
  unfold hextet. intros H.
  apply andb_prop in H. destruct H as [H Hx].
  apply andb_prop in H. destruct H as [H0 H4].
  apply negb_true_iff, Nat.eqb_neq in H0. apply Nat.leb_le in H4.
  split; [ lia | exact Hx ].
Qed.

Lemma join_colons_cons g g' gs :
  join_colons (g :: g' :: gs) = g ++ ":"%char :: join_colons (g' :: gs).
Proof. reflexivity. Qed.

Lemma join_colons_length gs :
  forallb hextet gs = true -> gs <> [] ->
  (1 <= length (join_colons gs) /\ length (join_colons gs) + 1 <= 5 * length gs)%nat.
Proof.
  induction gs as [|g gs IH]; intros H Hne; [ congruence |].
  cbn [forallb] in H. apply andb_prop in H. destruct H as [Hg Hgs].
  apply hextet_spec in Hg. destruct Hg as [Hlen _].
  destruct gs as [|g' gs].
  - cbn [join_colons length]. lia.
  - rewrite join_colons_cons, length_app.
    specialize (IH Hgs ltac:(discriminate)).
    cbn [length] in *. lia.
Qed.

(** The loop over the groups [gs], entered at the first byte of the
    first group with nothing pending: every group but the last is
    closed by its colon, the last one is left pending. *)
Lemma ipv6_loop_groups gs : forall pre rest gc hc n,
  forallb hextet gs = true -> gs <> [] ->
  str = pre ++ join_colons gs ++ rest ->
  (length pre + length (join_colons gs) <= src_endp)%nat ->
  gc + Z.of_nat (length gs) <= 9 ->
  exists st',
    src st' = (length pre + length (join_colons gs))%nat
    /\ group_count st' = gc + Z.of_nat (length gs) - 1
    /\ has_compression st' = hc
    /\ (1 <= xdigits_seen st' <= 4)%nat
    /\ ipv6_loop str src_endp (length (join_colons gs) + n)
                 (mkScan (length pre) gc hc (length pre) O 0)
       = ipv6_loop str src_endp n st'.
Proof.
  induction gs as [|g gs IH]; intros pre rest gc hc n H Hne Hstr Hend Hgc;
    [ congruence |].
  cbn [forallb] in H. apply andb_prop in H. destruct H as [Hg Hgs].
  apply hextet_spec in Hg. destruct Hg as [Hlen Hhex].
  destruct gs as [|g' gs].
  - (* the last group *)
    cbn [join_colons] in *.
    destruct (ipv6_loop_hex_run g pre rest Hstr Hhex n
                (mkScan (length pre) gc hc (length pre) O 0))
      as (v & _ & Hloop); fields;
      [ reflexivity | lia | change (16 ^ Z.of_nat 0) with 1; lia |].
    exists (mkScan (length pre + length g) gc hc (length pre)
                   (0 + length g) v).
    rewrite Hloop. fields.
    repeat split; cbn [length]; lia.
  - (* a group and its colon *)
    rewrite join_colons_cons in *.
    pose proof (join_colons_length (g' :: gs) Hgs ltac:(discriminate))
      as [Hj1 _].
    rewrite length_app in *. cbn [length] in Hend, Hgc |- *.
    rewrite <- Nat.add_assoc.
    assert (str = pre ++ g ++ ":"%char :: join_colons (g' :: gs) ++ rest)
      as Hstr' by (rewrite Hstr, <- app_assoc; reflexivity).
    destruct (ipv6_loop_hex_run g pre _ Hstr' Hhex
                (S (length (join_colons (g' :: gs))) + n)%nat
                (mkScan (length pre) gc hc (length pre) O 0))
      as (v & _ & Hloop); fields;
      [ reflexivity | lia | change (16 ^ Z.of_nat 0) with 1; lia |].
    rewrite Hloop. cbn [Nat.add]. rewrite ipv6_loop_S.
    rewrite ipv6_step_close; fields.
    + destruct (IH (pre ++ g ++ [":"%char]) rest (gc + 1) hc n Hgs
                  ltac:(discriminate))
        as (st' & Hs & Hg' & Hc' & Hx' & Hl).
      * rewrite Hstr, <- !app_assoc. reflexivity.
      * rewrite !length_app. cbn [length]. lia.
      * cbn [length]. lia.
      * rewrite !length_app in Hs, Hl. cbn [length] in Hs, Hl.
        replace (length pre + (length g + 1))%nat
          with (S (length pre + length g)) in Hs, Hl by lia.
        exists st'. rewrite Hl.
        repeat split; try lia; try assumption.
        cbn [length] in Hg'. lia.
    + rewrite Hstr', app_assoc, <- length_app. apply char_at_app.
    + lia.
    + lia.
    + lia.
Qed.

End IPv6Groups.

(** * IPv6: addresses made of plain groups *)

Section IPv6Plain.

Lemma xdigits_no_nul g : forallb is_xdigit g = true -> no_nul g = true.
Proof.
  induction g as [|c g IH]; cbn [forallb no_nul]; [ reflexivity |].
  intros H. apply andb_prop in H. destruct H as [Hc Hg].
  unfold is_xdigit in Hc. apply Z.geb_le, Z.le_ge in Hc.
  rewrite (hex_not_nul c Hc). cbn [negb andb]. exact (IH Hg).
Qed.

Lemma join_colons_no_nul gs :
  forallb hextet gs = true -> no_nul (join_colons gs) = true.
Proof.
  induction gs as [|g gs IH]; intros H; [ reflexivity |].
  cbn [forallb] in H. apply andb_prop in H. destruct H as [Hg Hgs].
  apply hextet_spec in Hg. destruct Hg as [_ Hx].
  destruct gs as [|g' gs].
  - cbn [join_colons]. now apply xdigits_no_nul.
  - rewrite join_colons_cons, no_nul_app, (xdigits_no_nul _ Hx).
    cbn [no_nul forallb andb]. exact (IH Hgs).
Qed.

(** The first byte of a run of groups is a hex digit. *)
Lemma join_colons_head g gs rest :
  hextet g = true ->
  is_xdigit (char_at (join_colons (g :: gs) ++ rest) 0) = true.
Proof.
  intros Hg. apply hextet_spec in Hg. destruct Hg as [Hlen Hx].
  destruct g as [|c g]; [ cbn [length] in Hlen; lia |].
  cbn [forallb] in Hx. apply andb_prop in Hx. destruct Hx as [Hc _].
  destruct gs; exact Hc.
Qed.

(** The loop over the groups [B] that end the string. *)
Lemma ipv6_loop_tail_groups s pre B gc hc :
  s = pre ++ join_colons B ->
  forallb hextet B = true ->
  gc + Z.of_nat (length B) <= 8 ->
  exists st,
    ipv6_loop s (length s) (length (join_colons B))
              (mkScan (length pre) gc hc (length pre) O 0) = Some st
    /\ has_compression st = hc
    /\ final_group_count st = gc + Z.of_nat (length B).
Proof.
  intros Hs HB Hgc. destruct B as [|g B].
  - eexists. split; [ reflexivity |]. split; [ reflexivity |].
    unfold final_group_count. fields. cbn. lia.
  - destruct (ipv6_loop_groups s (length s) (g :: B) pre [] gc hc 0 HB)
      as (st & Hsrc & Hg & Hc & Hx & Hloop).
    + discriminate.
    + rewrite app_nil_r. exact Hs.
    + rewrite Hs, length_app. lia.
    + lia.
    + rewrite Nat.add_0_r in Hloop. exists st.
      split; [ exact Hloop |]. split; [ exact Hc |].
      unfold final_group_count.
      destruct (Nat.ltb_spec 0 (xdigits_seen st)); lia.
Qed.

(** How the scan starts on a string that fits the window and opens
    with a hex digit. *)
Lemma ipv6_scan_from_xdigit s :
  no_nul s = true -> (length s <= INET6_ADDRSTRLEN)%nat ->
  is_xdigit (char_at s 0) = true ->
  ipv6_scan s = ipv6_loop s (length s) (length s) (mkScan 0 0 false 0 O 0).
Proof.
  intros Hnul Hlen Hx. unfold ipv6_scan. cbv zeta.
  rewrite (strnlen_no_nul _ _ Hnul), Nat.min_l by exact Hlen.
  unfold is_xdigit in Hx. apply Z.geb_le, Z.le_ge in Hx.
  rewrite (hex_not_nul _ Hx), (hex_not_colon _ Hx).
  destruct s as [|c s]; [ exfalso; apply Hx; reflexivity |].
  cbn [length Nat.eqb]. rewrite Nat.sub_0_r. reflexivity.
Qed.

(** How the scan starts on a string that fits the window and opens
    with two colons: the second one is taken as the compression
    marker. *)
Lemma ipv6_scan_from_marker rest :
  no_nul rest = true -> (length rest + 2 <= INET6_ADDRSTRLEN)%nat ->
  let s := ":"%char :: ":"%char :: rest in
  ipv6_scan s = ipv6_loop s (length s) (length rest) (mkScan 2 0 true 2 O 0).
Proof.
  intros Hnul Hlen s.
  assert (no_nul s = true) as Hs by exact Hnul.
  unfold ipv6_scan. cbv zeta.
  rewrite (strnlen_no_nul _ _ Hs), Nat.min_l
    by (subst s; cbn [length]; lia).
  subst s. cbn [length]. unfold char_at at 1 2 3. cbn [nth].
  change (Ascii.eqb ":" NUL) with false.
  change (Ascii.eqb ":" ":") with true. cbv iota.
  cbn [Nat.eqb orb negb]. cbv iota.
  replace (S (S (length rest)) - 1)%nat with (S (length rest)) by lia.
  rewrite ipv6_loop_S, ipv6_step_compress; reflexivity.
Qed.

(** The scan of up to eight groups written without compression. *)
Lemma ipv6_scan_plain_groups gs :
  gs <> [] -> forallb hextet gs = true -> (length gs <= 8)%nat ->
  exists st,
    ipv6_scan (join_colons gs) = Some st
    /\ has_compression st = false
    /\ final_group_count st = Z.of_nat (length gs).
Proof.
  intros Hne Hgs Hlen.
  pose proof (join_colons_length gs Hgs Hne) as [_ Hj].
  rewrite ipv6_scan_from_xdigit.
  - destruct (ipv6_loop_tail_groups (join_colons gs) [] gs 0 false
                eq_refl Hgs ltac:(lia)) as (st & Hloop & Hc & Hf).
    exists st. cbn [length] in Hloop. rewrite Hloop. auto.
  - now apply join_colons_no_nul.
  - unfold INET6_ADDRSTRLEN. lia.
  - destruct gs as [|g gs]; [ congruence |].
    cbn [forallb] in Hgs. apply andb_prop in Hgs. destruct Hgs as [Hg _].
    rewrite <- (app_nil_r (join_colons (g :: gs))).
    now apply join_colons_head.
Qed.

(** The scan of groups [A], a compression marker and groups [B],
    either side possibly empty, eight groups at most in all. *)
Lemma ipv6_scan_compressed A B :
  forallb hextet A = true -> forallb hextet B = true ->
  (length A + length B <= 8)%nat ->
  exists st,
    ipv6_scan (join_colons A ++ ":"%char :: ":"%char :: join_colons B)
    = Some st
    /\ has_compression st = true
    /\ final_group_count st = Z.of_nat (length A + length B).
Proof.
  intros HA HB Hlen.
  assert (length (join_colons B) + 1 <= 5 * length B + 1)%nat as HjB.
  { destruct B as [|b B]; [ cbn; lia |].
    pose proof (join_colons_length (b :: B) HB ltac:(discriminate)). lia. }
  pose proof (join_colons_no_nul B HB) as HnB.
  destruct A as [|a A].
  - (* the address opens with the marker *)
    cbn [join_colons app length Nat.add].
    rewrite (ipv6_scan_from_marker (join_colons B) HnB)
      by (unfold INET6_ADDRSTRLEN; cbn [length] in Hlen; lia).
    destruct (ipv6_loop_tail_groups
                (":"%char :: ":"%char :: join_colons B)
                [":"%char; ":"%char] B 0 true eq_refl HB
                ltac:(cbn [length] in Hlen; lia))
      as (st & Hloop & Hc & Hf).
    exists st. split; [ exact Hloop | split; [ exact Hc | lia ] ].
  - (* groups come first *)
    pose proof (join_colons_length (a :: A) HA ltac:(discriminate))
      as [HjA1 HjA].
    set (s := join_colons (a :: A) ++ ":"%char :: ":"%char :: join_colons B).
    assert (length s = length (join_colons (a :: A))
                       + (2 + length (join_colons B)))%nat as Hls
      by (subst s; rewrite length_app; reflexivity).
    rewrite ipv6_scan_from_xdigit.
    + destruct (ipv6_loop_groups s (length s) (a :: A) []
                  (":"%char :: ":"%char :: join_colons B) 0 false
                  (2 + length (join_colons B)) HA ltac:(discriminate)
                  eq_refl ltac:(cbn [length]; lia) ltac:(lia))
        as (st' & Hsrc & Hg & Hc & Hx & Hloop).
      cbn [length] in Hsrc. rewrite Nat.add_0_l in Hsrc.
      cbn [length] in Hloop. rewrite <- Hls in Hloop. rewrite Hloop.
      assert (char_at s (src st') = ":"%char) as Hc1
          by (rewrite Hsrc; apply char_at_app).
      assert (char_at s (S (src st')) = ":"%char) as Hc2.
      { rewrite Hsrc. subst s.
        change (join_colons (a :: A) ++ ":"%char :: ":"%char :: join_colons B)
          with (join_colons (a :: A) ++ [":"%char] ++ ":"%char :: join_colons B).
        rewrite app_assoc.
        replace (S (length (join_colons (a :: A))))
          with (length (join_colons (a :: A) ++ [":"%char]))
          by (rewrite length_app; cbn [length]; lia).
        apply char_at_app. }
      cbn [Nat.add]. rewrite ipv6_loop_S, ipv6_step_close; fields;
        [| exact Hc1 | lia | lia | lia ].
      rewrite ipv6_loop_S, ipv6_step_compress; fields;
        [| exact Hc2 | reflexivity | exact Hc ].
      destruct (ipv6_loop_tail_groups s
                  (join_colons (a :: A) ++ [":"%char; ":"%char]) B
                  (group_count st' + 1) true)
        as (st & Hl & Hc' & Hf).
      * subst s. rewrite <- app_assoc. reflexivity.
      * exact HB.
      * lia.
      * rewrite length_app in Hl. cbn [length] in Hl.
        replace (length (join_colons (a :: A)) + 2)%nat
          with (S (S (src st'))) in Hl by lia.
        exists st. rewrite Hl. split; [ reflexivity |].
        split; [ exact Hc' |]. lia.
    + subst s. rewrite no_nul_app, (join_colons_no_nul _ HA).
      cbn [no_nul forallb andb]. exact HnB.
    + unfold INET6_ADDRSTRLEN. lia.
    + subst s. cbn [forallb] in HA. apply andb_prop in HA.
      destruct HA as [Ha _]. now apply join_colons_head.
Qed.

End IPv6Plain.

(** * IPv4: the claims *)

(** C1, as the code has it: for every string of at most 15 characters
    (the longest dotted quad the validator is sized for),
    [is_valid_ipv4_address] returns true if and only if the string
    consists of exactly four dot-separated segments, each non-empty,
    made of ASCII digits only and of value in [0,255]. *)
Theorem ipv4_accepts_iff_dotted_quad (s : list ascii) :
  no_nul s = true -> (length s <= 15)%nat ->
  is_valid_ipv4_address (Some s) = true <->
  exists a b c d,
    s = dotted a b c d
    /\ octet_ok a = true /\ octet_ok b = true
    /\ octet_ok c = true /\ octet_ok d = true.
Proof.
  intros Hnul Hlen.
  rewrite ipv4_decides_grammar; [ apply spec_ipv4_dotted | exact Hnul |].
  unfold MAX_SIZE_IPV4. lia.
Qed.

Lemma ipv4_accepts_iff_dotted_quad_witness :
  is_valid_ipv4_address (Some (of_string "255.255.255.255")) = true <->
  exists a b c d,
    of_string "255.255.255.255" = dotted a b c d
    /\ octet_ok a = true /\ octet_ok b = true
    /\ octet_ok c = true /\ octet_ok d = true.
Proof.
  apply ipv4_accepts_iff_dotted_quad; [ reflexivity | simpl; lia ].
Defined.

(** C1 as stated fails: a string of four well-formed segments that is
    longer than the scan window is rejected. *)
Lemma ipv4_long_dotted_quad_rejected :
  ~ (is_valid_ipv4_address (Some (of_string "0000000000001.2.3.4")) = true
     <-> exists a b c d,
           of_string "0000000000001.2.3.4" = dotted a b c d
           /\ octet_ok a = true /\ octet_ok b = true
           /\ octet_ok c = true /\ octet_ok d = true).
Proof.
  intros [_ H].
  assert (is_valid_ipv4_address (Some (of_string "0000000000001.2.3.4"))
          = true) as E.
  { apply H.
    exists (of_string "0000000000001"), (of_string "2"),
           (of_string "3"), (of_string "4").
    repeat split. }
  vm_compute in E. discriminate.
Qed.

(** C2 (every string longer than 15 characters is rejected) does not
    hold of the code: a string of 17 characters, with five segments,
    is accepted.  The loop runs out of its 17 iterations with four
    octets counted and never meets the terminator.  A zero-padded
    quad of 16 characters is accepted too, through the terminator
    read at index 16. *)
Theorem ipv4_accepts_beyond_max_size :
  (length (of_string "1.2.3.4.000000000") > 15)%nat
  /\ is_valid_ipv4_address (Some (of_string "1.2.3.4.000000000")) = true
  /\ spec_ipv4 (of_string "1.2.3.4.000000000") = false
  /\ (length (of_string "0001.0002.003.04") > 15)%nat
  /\ is_valid_ipv4_address (Some (of_string "0001.0002.003.04")) = true.
Proof.
  split; [ simpl; lia |].
  split; [ reflexivity |].
  split; [ reflexivity |].
  split; [ simpl; lia | reflexivity ].
Qed.

(** C6: in [parse_int] the accumulator is at most 255 after any number
    of iterations; a digit whose multiply-add would exceed 255 is
    refused before the multiply-add, whatever follows; a successful
    parse never trips the caller's range check; and
    ["99999999999.1.1.1"] is rejected. *)
Theorem parse_int_never_exceeds_255 :
  (forall str n i r, parse_int_loop str n i 0 = Some r -> 0 <= r <= 255)
  /\ (forall str n i acc,
        isdigit (char_at str i) = true ->
        acc * 10 + digit_of (char_at str i) > 255 ->
        parse_int_loop str (S n) i acc = None)
  /\ (forall str start end_ v,
        parse_int str start end_ = Some v -> (v >? 255) = false)
  /\ is_valid_ipv4_address (Some (of_string "99999999999.1.1.1")) = false.
Proof.
  split; [| split; [| split ] ].
  - intros str n i r H. eapply parse_int_loop_bound; [| exact H ]. lia.
  - intros str n i acc Hc Hov. cbn [parse_int_loop]. rewrite Hc. cbn [negb].
    apply overflow_guard_spec in Hov; [| apply isdigit_range; exact Hc ].
    rewrite Hov. reflexivity.
  - intros [s|] start end_ v H; [| discriminate ].
    unfold parse_int in H.
    destruct ((end_ <=? start)%nat || Ascii.eqb (char_at s 0) NUL);
      [ discriminate |].
    apply parse_int_loop_bound in H; [| lia ].
    destruct (Z.gtb_spec v 255); [ lia | reflexivity ].
  - reflexivity.
Qed.

Lemma parse_int_never_exceeds_255_witness : 0 <= 255 <= 255.
Proof.
  apply (proj1 parse_int_never_exceeds_255 (of_string "255") 3%nat 0%nat 255).
  reflexivity.
Defined.

(** C9, as the code has it: when [a.b.c.d] is accepted, putting zeros
    in front of its segments leaves it accepted as long as the padded
    string has at most 15 characters. *)
Theorem ipv4_leading_zeros_accepted (a b c d : list ascii) (ka kb kc kd : nat) :
  forallb isdigit a = true -> forallb isdigit b = true ->
  forallb isdigit c = true -> forallb isdigit d = true ->
  is_valid_ipv4_address (Some (dotted a b c d)) = true ->
  (length (dotted (zero_pad ka a) (zero_pad kb b)
                  (zero_pad kc c) (zero_pad kd d)) <= 15)%nat ->
  is_valid_ipv4_address
    (Some (dotted (zero_pad ka a) (zero_pad kb b)
                  (zero_pad kc c) (zero_pad kd d))) = true.
Proof.
  intros Ha Hb Hc Hd Hv Hlen.
  rewrite ipv4_decides_grammar in Hv.
  - rewrite ipv4_decides_grammar.
    + unfold spec_ipv4 in *.
      rewrite (split_dots_dotted a b c d Ha Hb Hc Hd) in Hv.
      rewrite split_dots_dotted by (apply digits_zero_pad; assumption).
      cbn [length Nat.eqb forallb andb] in *.
      rewrite andb_true_r in *.
      apply andb_prop in Hv. destruct Hv as [Hoa Hv].
      apply andb_prop in Hv. destruct Hv as [Hob Hv].
      apply andb_prop in Hv. destruct Hv as [Hoc Hod].
      rewrite !octet_ok_zero_pad by assumption. reflexivity.
    + apply no_nul_dotted; apply digits_zero_pad; assumption.
    + unfold MAX_SIZE_IPV4. lia.
  - apply no_nul_dotted; assumption.
  - rewrite length_dotted in *. rewrite !length_zero_pad in Hlen.
    unfold MAX_SIZE_IPV4. lia.
Qed.

Lemma ipv4_leading_zeros_accepted_witness :
  is_valid_ipv4_address (Some (of_string "192.001.002.003")) = true.
Proof.
  apply (ipv4_leading_zeros_accepted
           (of_string "192") (of_string "1") (of_string "2") (of_string "3")
           0 2 2 2);
    reflexivity.
Defined.

(** C9 as stated fails: ["1.2.3.4"] is accepted, and with twelve
    zeros in front of its first segment it is rejected. *)
Lemma ipv4_zero_padding_can_reject :
  is_valid_ipv4_address
    (Some (dotted (of_string "1") (of_string "2")
                  (of_string "3") (of_string "4"))) = true
  /\ is_valid_ipv4_address
       (Some (dotted (zero_pad 12 (of_string "1")) (of_string "2")
                     (of_string "3") (of_string "4"))) = false.
Proof. split; reflexivity. Qed.

(** * IPv6: the claims *)

(** C3: an address is accepted exactly when its scan completes and the
    group count, once a pending group is closed, is below 8 if a
    compression marker was consumed and exactly 8 if none was.  In
    particular ["::"] is accepted, eight groups of 1 to 4 hex digits
    written without compression are accepted, and eight groups
    together with a compression marker are rejected, wherever the
    marker stands and also when the scan ended in an IPv4 suffix. *)
Theorem ipv6_group_count_rule :
  (forall s,
      is_valid_ipv6_address (Some s) = true <->
      exists st, ipv6_scan s = Some st
                 /\ (has_compression st = true -> final_group_count st < 8)
                 /\ (has_compression st = false -> final_group_count st = 8))
  /\ is_valid_ipv6_address (Some (of_string "::")) = true
  /\ (forall gs,
        length gs = 8%nat -> forallb hextet gs = true ->
        is_valid_ipv6_address (Some (join_colons gs)) = true)
  /\ (forall A B,
        forallb hextet A = true -> forallb hextet B = true ->
        (length A + length B = 8)%nat ->
        is_valid_ipv6_address
          (Some (join_colons A ++ ":"%char :: ":"%char :: join_colons B))
        = false)
  /\ (forall s st,
        ipv6_scan s = Some st -> has_compression st = true ->
        final_group_count st = 8 ->
        is_valid_ipv6_address (Some s) = false)
  /\ is_valid_ipv6_address
       (Some (of_string "2001:0db8:0000:0000:0000:0000:0000:0001")) = true
  /\ is_valid_ipv6_address (Some (of_string "1:2:3:4::5:6:7:8")) = false
  /\ is_valid_ipv6_address (Some (of_string "1:2:3:4:5:6::1.2.3.4")) = false.
Proof.
  split; [| split; [| split; [| split; [| split ] ] ] ];
    [ | reflexivity | | | | repeat split ].
  - intros s. unfold is_valid_ipv6_address.
    destruct (ipv6_scan s) as [st|].
    + rewrite ipv6_accept_spec. split.
      * intros H. exists st. split; [ reflexivity | exact H ].
      * intros [st' [E H]]. injection E as <-. exact H.
    + split; [ discriminate | intros [st' [E _]]; discriminate ].
  - intros gs Hlen Hgs.
    destruct (ipv6_scan_plain_groups gs) as (st & Hscan & Hc & Hf);
      [ intros ->; discriminate | exact Hgs | lia |].
    unfold is_valid_ipv6_address. rewrite Hscan.
    apply ipv6_accept_spec. split; [ congruence | intros _; lia ].
  - intros A B HA HB Hlen.
    destruct (ipv6_scan_compressed A B HA HB) as (st & Hscan & Hc & Hf);
      [ lia |].
    unfold is_valid_ipv6_address. rewrite Hscan.
    destruct (ipv6_accept st) eqn:E; [| reflexivity ].
    apply ipv6_accept_spec in E. destruct E as [E _].
    specialize (E Hc). lia.
  - intros s st Hscan Hc Hg. unfold is_valid_ipv6_address. rewrite Hscan.
    destruct (ipv6_accept st) eqn:E; [| reflexivity ].
    apply ipv6_accept_spec in E. destruct E as [E _].
    specialize (E Hc). lia.
Qed.

Lemma ipv6_group_count_rule_witness :
  is_valid_ipv6_address
    (Some (join_colons
             [of_string "2001"; of_string "db8"; of_string "0";
              of_string "0"; of_string "0"; of_string "0";
              of_string "0"; of_string "1"])) = true.
Proof.
  apply (proj1 (proj2 (proj2 ipv6_group_count_rule))); reflexivity.
Defined.

(** C4 (an IPv4 suffix is accepted only if the remainder of the string
    from the start of its token is three dots and digits, and nothing
    may follow it) does not hold of the code on a string longer than
    the window.  Here the IPv4-suffix branch is taken at the dot of
    index 31 with the token starting at index 30; the remainder of
    the string from there holds four dots and bytes that are neither
    digits nor dots, yet the branch succeeds, adds 2 to the group
    count, and the address is accepted with bytes after the suffix.
    For a string that fits the window the claim holds:
    [ipv6_step_dot_in_window], [ipv6_suffix_in_window] and
    [ipv6_step_dot_no_digits]. *)
Theorem ipv6_suffix_accepts_trailing_bytes :
  let s := of_string
             "ffff:ffff:ffff:ffff:ffff:ffff:1.2.3.0000000004.anything" in
  let src_endp := strnlen s INET6_ADDRSTRLEN in
  ipv6_loop s src_endp 31 (mkScan 0 0 false 0 O 0)
  = Some (mkScan 31 6 false 30 1 1)
  /\ char_at s 31 = "."%char
  /\ ipv6_step s src_endp (mkScan 31 6 false 30 1 1)
     = Break (mkScan 32 8 false 30 O 1)
  /\ forallb digit_or_dot (skipn 30 s) = false
  /\ dot_count (skipn 30 s) = 4
  /\ is_valid_ipv6_address (Some s) = true.
Proof. cbv zeta. repeat split. Qed.

(** C5 (any input with two compression markers, or three colons in a
    row, is rejected) does not hold of the code: a string with three
    colons in a row after the window is accepted.  Inside the window
    a second marker is always refused: [ipv6_rejects_second_marker]. *)
Theorem ipv6_accepts_second_marker_past_window :
  let s := of_string
             "ffff:ffff:ffff:ffff:ffff:ffff:1.2.3.0000000004.:::" in
  char_at s 47 = ":"%char /\ char_at s 48 = ":"%char
  /\ char_at s 49 = ":"%char
  /\ is_valid_ipv6_address (Some s) = true.
Proof. cbv zeta. repeat split. Qed.

(** C7: no more than four hex digits are ever pending in the main
    loop, so that a group closed by a colon, or by the end of a scan,
    has between 1 and 4 digits; a hex digit met with four pending is
    refused on the spot; and an address in which the loop meets five
    hex digits in a row (inside the window, no IPv4 suffix begun
    before them) is rejected. *)
Theorem ipv6_group_has_1_to_4_digits :
  (forall str src_endp st,
      scanning str src_endp st -> (xdigits_seen st <= 4)%nat)
  /\ (forall str src_endp st st',
        scanning str src_endp st ->
        ipv6_step str src_endp st = Continue st' ->
        group_count st' = group_count st + 1 ->
        (1 <= xdigits_seen st <= 4)%nat)
  /\ (forall s st,
        ipv6_scan s = Some st ->
        final_group_count st = group_count st + 1 ->
        (1 <= xdigits_seen st <= 4)%nat)
  /\ (forall str src_endp st,
        xdigits_seen st = 4%nat ->
        is_xdigit (char_at str (src st)) = true ->
        ipv6_step str src_endp st = Reject)
  /\ (forall pre h post,
        no_nul pre = true ->
        forallb (fun c => negb (Ascii.eqb c "."%char)) pre = true ->
        length h = 5%nat -> forallb is_xdigit h = true ->
        (length pre + 5 <= INET6_ADDRSTRLEN)%nat ->
        is_valid_ipv6_address (Some (pre ++ h ++ post)) = false).
Proof.
  split; [| split; [| split; [| split ] ] ].
  - exact scanning_xdigits.
  - intros str src_endp st st' Hs Hstep Hg.
    pose proof (scanning_xdigits _ _ _ Hs).
    apply ipv6_step_Continue in Hstep.
    destruct Hstep as [(_ & _ & ->)
                      | [(_ & _ & _ & ->) | (_ & Hx & _ & _ & ->)]];
      fields; lia.
  - intros s st Hs Hg.
    pose proof (ipv6_scan_pending_group _ _ Hs).
    unfold final_group_count in Hg.
    destruct (Nat.ltb_spec 0 (xdigits_seen st)); lia.
  - intros str src_endp st Hx Hh. unfold ipv6_step. cbv zeta.
    unfold is_xdigit in Hh. rewrite Hh, Hx. reflexivity.
  - exact ipv6_rejects_fifth_hex_digit.
Qed.

Lemma ipv6_group_has_1_to_4_digits_witness :
  is_valid_ipv6_address
    (Some (of_string "2001:db8::" ++ of_string "12345" ++ of_string ":1"))
  = false.
Proof.
  apply (proj2 (proj2 (proj2 (proj2 ipv6_group_has_1_to_4_digits))));
    try reflexivity.
  simpl. unfold INET6_ADDRSTRLEN. lia.
Defined.

(** C10 (no string longer than 45 characters is accepted) does not
    hold of the code: a string of 54 characters is accepted.  Its
    first 46 characters end in the partial quad
    ["1.2.3.0000000004"]; the IPv4 validator, handed the untruncated
    remainder, stops at its own 17-byte bound with four octets
    counted. *)
Theorem ipv6_accepts_beyond_addrstrlen :
  (length (of_string
     "ffff:ffff:ffff:ffff:ffff:ffff:1.2.3.0000000004.garbage") > 45)%nat
  /\ is_valid_ipv6_address
       (Some (of_string
          "ffff:ffff:ffff:ffff:ffff:ffff:1.2.3.0000000004.garbage")) = true.
Proof. split; [ simpl; lia | reflexivity ]. Qed.

(** * Both validators *)

(** C8: the null pointer and the empty string are rejected by both
    validators, and each validator answers true or false on every
    input. *)
Theorem null_and_empty_rejected :
  is_valid_ipv4_address None = false
  /\ is_valid_ipv4_address (Some []) = false
  /\ is_valid_ipv6_address None = false
  /\ is_valid_ipv6_address (Some []) = false
  /\ (forall str, is_valid_ipv4_address str = true
                  \/ is_valid_ipv4_address str = false)
  /\ (forall str, is_valid_ipv6_address str = true
                  \/ is_valid_ipv6_address str = false).
Proof.
  repeat split; try reflexivity.
  - intros str. destruct (is_valid_ipv4_address str); auto.
  - intros str. destruct (is_valid_ipv6_address str); auto.
Qed.

(** * Further properties of the validators *)

(** ** Hex digits *)

Section HexDigits.

Lemma ascii_all (P : ascii -> bool) :
  forallb (fun n => P (ascii_of_nat n)) (seq 0 256) = true ->
  forall c, P c = true.
Proof.
  intros H c. rewrite forallb_forall in H.
  rewrite <- (ascii_nat_embedding c). apply H.
  apply in_seq. pose proof (nat_ascii_bounded c). lia.
Qed.

End HexDigits.

(** X1: [hex_digit_value] decodes base 16 in both cases, and nothing
    else: it returns [v] in 0..15 exactly on the lower-case and the
    upper-case digit of value [v], and -1 on every other byte. *)
Theorem hex_digit_value_decodes (c : ascii) :
  (forall v, 0 <= v <= 15 ->
     (hex_digit_value c = v <->
      c = nth (Z.to_nat v) lower_xdigits NUL
      \/ c = nth (Z.to_nat v) upper_xdigits NUL))
  /\ (hex_digit_value c = -1 \/ 0 <= hex_digit_value c <= 15).
Proof.
  split.
  - intros v Hv.
    assert (exists k, (k < 16)%nat /\ v = Z.of_nat k) as (k & Hk & ->)
        by (exists (Z.to_nat v); lia).
    rewrite Nat2Z.id.
    pose proof (ascii_all
      (fun c => forallb (fun k =>
         Bool.eqb (hex_digit_value c =? Z.of_nat k)
                  (Ascii.eqb c (nth k lower_xdigits NUL)
                   || Ascii.eqb c (nth k upper_xdigits NUL)))
         (seq 0 16)) ltac:(vm_compute; reflexivity) c) as H.
    cbv beta in H. rewrite forallb_forall in H.
    specialize (H k ltac:(apply in_seq; lia)).
    apply Bool.eqb_prop in H.
    rewrite <- Z.eqb_eq, H, orb_true_iff, !Ascii.eqb_eq. reflexivity.
  - pose proof (hex_digit_value_range c).
    destruct (Z.eq_dec (hex_digit_value c) (-1)); [ left | right ]; lia.
Qed.

Lemma hex_digit_value_decodes_witness :
  hex_digit_value "c"%char = 12 <->
  "c"%char = nth (Z.to_nat 12) lower_xdigits NUL
  \/ "c"%char = nth (Z.to_nat 12) upper_xdigits NUL.
Proof.
  apply (proj1 (hex_digit_value_decodes "c"%char) 12). lia.
Defined.

(** ** The integer parse *)

Section ParseIntSpec.

Lemma parse_int_loop_substring str n : forall i acc,
  parse_int_loop str n i acc
  = parse_digits (map (char_at str) (seq i n)) acc.
Proof.
  induction n as [|n IH]; intros i acc; [ reflexivity |].
  cbn [parse_int_loop seq map parse_digits].
  destruct (negb (isdigit (char_at str i))); [ reflexivity |].
  destruct (overflow_guard acc (digit_of (char_at str i)));
    [ reflexivity |].
  apply IH.
Qed.

Lemma parse_digits_digits cur : forall acc v,
  parse_digits cur acc = Some v -> forallb isdigit cur = true.
Proof.
  induction cur as [|c cur IH]; intros acc v H; [ reflexivity |].
  cbn [parse_digits forallb] in *.
  destruct (isdigit c); cbn [negb andb] in *; [| discriminate ].
  destruct (overflow_guard acc (digit_of c)); [ discriminate |].
  exact (IH _ _ H).
Qed.

End ParseIntSpec.

(** X2: [parse_int] succeeds exactly when the range is not empty, the
    string is not empty, the bytes of the range are all decimal digits
    and their value is at most 255; the value it stores is then the
    decimal value of the range.  The null pointer is refused. *)
Theorem parse_int_spec (str : list ascii) (start end_ : nat) (v : Z) :
  (parse_int (Some str) start end_ = Some v <->
   (start < end_)%nat
   /\ Ascii.eqb (char_at str 0) NUL = false
   /\ forallb isdigit (substring str start end_) = true
   /\ dec_value (substring str start end_) = v
   /\ v <= 255)
  /\ parse_int None start end_ = None.
Proof.
  split; [| reflexivity ].
  unfold parse_int, substring.
  destruct (Nat.leb_spec end_ start) as [Hle|Hlt]; cbn [orb].
  - split; [ discriminate | intros (H & _); lia ].
  - destruct (Ascii.eqb (char_at str 0) NUL) eqn:H0.
    + split; [ discriminate | intros (_ & H & _); discriminate ].
    + rewrite parse_int_loop_substring.
      set (cur := map (char_at str) (seq start (end_ - start))).
      split.
      * intros H. pose proof (parse_digits_digits _ _ _ H) as Hd.
        rewrite (parse_digits_spec cur 0 ltac:(lia) Hd) in H.
        fold (dec_value cur) in H.
        destruct (Z.leb_spec (dec_value cur) 255); [| discriminate ].
        injection H as <-. auto.
      * intros (_ & _ & Hd & Hv & Hb).
        rewrite (parse_digits_spec cur 0 ltac:(lia) Hd).
        fold (dec_value cur). rewrite Hv.
        destruct (Z.leb_spec v 255); [ reflexivity | lia ].
Qed.

Lemma parse_int_spec_witness :
  parse_int (Some (of_string "10.020.3.4")) 3 6 = Some 20.
Proof.
  apply (proj1 (parse_int_spec (of_string "10.020.3.4") 3 6 20)).
  repeat split; try reflexivity; lia.
Defined.

(** ** The group accumulator *)

Section GroupValue.

Lemma uint_shl4_or_add v d :
  0 <= v < 4096 -> 0 <= d <= 15 -> uint_shl4_or v d = v * 16 + d.
Proof.
  intros Hv Hd. unfold uint_shl4_or.
  rewrite Z.shiftl_mul_pow2 by lia. change (2 ^ 4) with 16.
  rewrite Z.mod_small by (change (2 ^ 32) with 4294967296; lia).
  assert (Z.land (v * 16) d = 0) as Hland.
  { assert (d = Z.land d (Z.ones 4)) as ->
        by (rewrite Z.land_ones by lia; change (2 ^ 4) with 16;
            rewrite Z.mod_small; lia).
    rewrite (Z.land_comm d), Z.land_assoc, Z.land_ones by lia.
    change (2 ^ 4) with 16. rewrite Z.mod_mul by lia. reflexivity. }
  pose proof (Z.add_lor_land (v * 16) d). lia.
Qed.

Lemma hex_value_snoc l c :
  hex_value (l ++ [c]) = hex_value l * 16 + hex_digit_value c.
Proof. unfold hex_value. now rewrite fold_left_app. Qed.

Lemma hex_value_bound l :
  forallb is_xdigit l = true ->
  0 <= hex_value l < 16 ^ Z.of_nat (length l).
Proof.
  induction l as [|c l IH] using rev_ind; intros H.
  - cbn. lia.
  - rewrite forallb_app in H. apply andb_prop in H. destruct H as [Hl Hc].
    cbn [forallb] in Hc. rewrite andb_true_r in Hc.
    unfold is_xdigit in Hc. apply Z.geb_le in Hc.
    pose proof (hex_digit_value_range c).
    specialize (IH Hl). rewrite hex_value_snoc, length_app.
    cbn [length]. rewrite Nat2Z.inj_add. change (Z.of_nat 1) with 1.
    rewrite Z.pow_add_r by lia. change (16 ^ 1) with 16. lia.
Qed.

Lemma substring_length str a b : length (substring str a b) = (b - a)%nat.
Proof. unfold substring. now rewrite length_map, length_seq. Qed.

Lemma substring_snoc str a b :
  (a <= b)%nat ->
  substring str a (S b) = substring str a b ++ [char_at str b].
Proof.
  intros H. unfold substring.
  replace (S b - a)%nat with (S (b - a)) by lia.
  rewrite seq_S, map_app. cbn [map].
  replace (a + (b - a))%nat with b by lia. reflexivity.
Qed.

Lemma substring_empty str a : substring str a a = [].
Proof. unfold substring. now rewrite Nat.sub_diag. Qed.

Variable str : list ascii.
Variable src_endp : nat.

(** What the main loop keeps true of the pending group: its digits
    are the last [xdigits_seen] bytes read, and [val] is their
    value. *)
Lemma scanning_group st :
  scanning str src_endp st ->
  (xdigits_seen st <= 4)%nat
  /\ (xdigits_seen st <= src st)%nat
  /\ forallb is_xdigit
       (substring str (src st - xdigits_seen st) (src st)) = true
  /\ val st = hex_value (substring str (src st - xdigits_seen st) (src st)).
Proof.
  induction 1 as [src0 | st st' Hs IH Hstep].
  - fields. rewrite Nat.sub_0_r, substring_empty.
    repeat split; try reflexivity; lia.
  - destruct IH as (Hx4 & Hxs & Hd & Hv).
    apply ipv6_step_Continue in Hstep. cbv zeta in Hstep.
    destruct Hstep as [(Hh & Hne & ->)
                      | [(_ & Hx & _ & ->) | (_ & _ & _ & _ & ->)]];
      fields.
    + replace (S (src st) - S (xdigits_seen st))%nat
        with (src st - xdigits_seen st)%nat by lia.
      rewrite substring_snoc by lia.
      pose proof (hex_value_bound _ Hd) as Hb.
      rewrite substring_length in Hb.
      replace (src st - (src st - xdigits_seen st))%nat
        with (xdigits_seen st) in Hb by lia.
      assert (16 ^ Z.of_nat (xdigits_seen st) <= 16 ^ 3)
        by (apply Z.pow_le_mono_r; lia).
      change (16 ^ 3) with 4096 in *.
      pose proof (hex_digit_value_range (char_at str (src st))).
      repeat split; try lia.
      * rewrite forallb_app, Hd. cbn [forallb]. unfold is_xdigit.
        destruct (Z.geb_spec (hex_digit_value (char_at str (src st))) 0);
          [ reflexivity | lia ].
      * rewrite hex_value_snoc, <- Hv. apply uint_shl4_or_add; lia.
    + rewrite Hx in *. rewrite Nat.sub_0_r in *.
      rewrite substring_empty in *. repeat split; try lia; auto.
    + rewrite Nat.sub_0_r, substring_empty.
      repeat split; try reflexivity; lia.
Qed.

End GroupValue.

(** X3: in every state of the main loop, [val] is the value of the hex
    digits pending since the last separator and is at most 0xFFFF, so
    the test [val > 0xffff] never rejects: a hex digit is refused
    exactly when four are already pending. *)
Theorem ipv6_val_is_group_value (str : list ascii) (src_endp : nat)
    (st : scan_state) :
  scanning str src_endp st ->
  val st = hex_value (substring str (src st - xdigits_seen st) (src st))
  /\ 0 <= val st <= 65535
  /\ (is_xdigit (char_at str (src st)) = true ->
      (ipv6_step str src_endp st = Reject <-> xdigits_seen st = 4%nat)).
Proof.
  intros Hs. destruct (scanning_group _ _ _ Hs) as (Hx4 & Hxs & Hd & Hv).
  pose proof (hex_value_bound _ Hd) as Hb.
  rewrite substring_length, <- Hv in Hb.
  replace (src st - (src st - xdigits_seen st))%nat
    with (xdigits_seen st) in Hb by lia.
  assert (16 ^ Z.of_nat (xdigits_seen st) <= 16 ^ 4)
    by (apply Z.pow_le_mono_r; lia).
  change (16 ^ 4) with 65536 in *.
  split; [ exact Hv | split; [ lia |] ].
  intros Hh. split.
  - intros Hrej.
    destruct (Nat.eq_dec (xdigits_seen st) 4) as [E|E]; [ exact E |].
    destruct (ipv6_step_xdigit str src_endp st Hh ltac:(lia) Hb)
      as (v & _ & Hstep).
    congruence.
  - intros Hx. unfold ipv6_step. cbv zeta.
    unfold is_xdigit in Hh. rewrite Hh, Hx. reflexivity.
Qed.

Lemma ipv6_val_is_group_value_witness :
  val (mkScan 3 0 false 0 3 3512)
  = hex_value (substring (of_string "db8::1") (3 - 3) 3).
Proof.
  apply (ipv6_val_is_group_value (of_string "db8::1") 6
           (mkScan 3 0 false 0 3 3512)).
  eapply scanning_next; [ eapply scanning_next;
                          [ eapply scanning_next;
                            [ apply (scanning_start _ _ 0%nat) |] |] |];
    reflexivity.
Defined.

(** ** What the validators read *)

Section Agreement.

Lemma isdigit_hex_value c :
  isdigit c = (0 <=? hex_digit_value c) && (hex_digit_value c <=? 9).
Proof.
  apply Bool.eqb_prop.
  apply (ascii_all (fun c => Bool.eqb (isdigit c)
                     ((0 <=? hex_digit_value c)
                      && (hex_digit_value c <=? 9)))).
  vm_compute. reflexivity.
Qed.

Lemma isdigit_digit_of c : isdigit c = true -> digit_of c = hex_digit_value c.
Proof.
  unfold hex_digit_value, isdigit, digit_of. intros ->. reflexivity.
Qed.

Lemma same_class_spec c d :
  same_class c d = true ->
  hex_digit_value c = hex_digit_value d
  /\ Ascii.eqb c ":"%char = Ascii.eqb d ":"%char
  /\ Ascii.eqb c "."%char = Ascii.eqb d "."%char
  /\ Ascii.eqb c NUL = Ascii.eqb d NUL
  /\ isdigit c = isdigit d
  /\ (isdigit c = true -> digit_of c = digit_of d).
Proof.
  unfold same_class. intros H.
  apply andb_prop in H. destruct H as [H Hn].
  apply andb_prop in H. destruct H as [H Hd].
  apply andb_prop in H. destruct H as [Hh Hc].
  apply Z.eqb_eq in Hh.
  apply Bool.eqb_prop in Hn, Hd, Hc.
  assert (isdigit c = isdigit d) as Hi
      by (rewrite !isdigit_hex_value, Hh; reflexivity).
  repeat split; try assumption.
  intros Hdc. rewrite isdigit_digit_of by exact Hdc.
  rewrite isdigit_digit_of by (rewrite <- Hi; exact Hdc). exact Hh.
Qed.

Lemma same_class_refl c : same_class c c = true.
Proof.
  unfold same_class. rewrite Z.eqb_refl, !Bool.eqb_reflx. reflexivity.
Qed.

Lemma same_class_tolower c : same_class c (ascii_tolower c) = true.
Proof.
  apply (ascii_all (fun c => same_class c (ascii_tolower c))).
  vm_compute. reflexivity.
Qed.

Lemma same_class_toupper c : same_class c (ascii_toupper c) = true.
Proof.
  apply (ascii_all (fun c => same_class c (ascii_toupper c))).
  vm_compute. reflexivity.
Qed.

Variables s t : list ascii.

Lemma parse_int_loop_agree n : forall i acc,
  (forall k, (i <= k < i + n)%nat ->
             same_class (char_at s k) (char_at t k) = true) ->
  parse_int_loop s n i acc = parse_int_loop t n i acc.
Proof.
  induction n as [|n IH]; intros i acc H; [ reflexivity |].
  cbn [parse_int_loop].
  destruct (same_class_spec _ _ (H i ltac:(lia)))
    as (_ & _ & _ & _ & Hd & Hv).
  rewrite <- Hd.
  destruct (isdigit (char_at s i)) eqn:E; cbn [negb]; [| reflexivity ].
  rewrite <- (Hv eq_refl).
  destruct (overflow_guard acc (digit_of (char_at s i))); [ reflexivity |].
  apply IH. intros k Hk. apply H. lia.
Qed.

Lemma parse_int_agree m start end_ :
  (forall k, (k < m)%nat -> same_class (char_at s k) (char_at t k) = true) ->
  (1 <= m)%nat -> (end_ <= m)%nat ->
  parse_int (Some s) start end_ = parse_int (Some t) start end_.
Proof.
  intros H H1 He. unfold parse_int.
  destruct (same_class_spec _ _ (H O ltac:(lia))) as (_ & _ & _ & Hn & _).
  rewrite <- Hn.
  destruct ((end_ <=? start)%nat || Ascii.eqb (char_at s 0) NUL) eqn:E;
    [ reflexivity |].
  apply orb_false_elim in E. destruct E as [E _].
  apply Nat.leb_gt in E.
  apply parse_int_loop_agree. intros k Hk. apply H. lia.
Qed.

Lemma ipv4_loop_agree n : forall i cnt start,
  (forall k, (k < i + n)%nat ->
             same_class (char_at s k) (char_at t k) = true) ->
  ipv4_loop s n i cnt start = ipv4_loop t n i cnt start.
Proof.
  induction n as [|n IH]; intros i cnt start H; [ reflexivity |].
  rewrite !ipv4_loop_S. cbv zeta.
  destruct (same_class_spec _ _ (H i ltac:(lia)))
    as (_ & _ & Hdot & Hn & Hd & _).
  rewrite <- Hdot, <- Hn, <- Hd.
  rewrite (parse_int_agree (i + S n) start i H ltac:(lia) ltac:(lia)).
  rewrite !IH by (intros k Hk; apply H; lia).
  reflexivity.
Qed.

End Agreement.

Section AgreementWindow.

Lemma char_at_cons c (s : list ascii) k : char_at (c :: s) (S k) = char_at s k.
Proof. reflexivity. Qed.

Lemma strnlen_agree m : forall s t,
  (forall k, (k <= strnlen s m)%nat ->
             same_class (char_at s k) (char_at t k) = true) ->
  strnlen t m = strnlen s m.
Proof.
  induction m as [|m IH]; intros s t H.
  - destruct s, t; reflexivity.
  - assert (Ascii.eqb (char_at s 0) NUL = Ascii.eqb (char_at t 0) NUL) as H0
        by (apply same_class_spec, H; lia).
    destruct s as [|c s]; destruct t as [|d t]; unfold char_at in H0;
      cbn [nth strnlen] in *.
    + reflexivity.
    + rewrite <- H0. reflexivity.
    + change (Ascii.eqb NUL NUL) with true in H0. rewrite H0. reflexivity.
    + rewrite <- H0. destruct (Ascii.eqb c NUL) eqn:E; [ reflexivity |].
      f_equal. apply IH. intros k Hk.
      apply (H (S k)). lia.
Qed.

Lemma strnlen_mono s : forall a b, (a <= b)%nat -> (strnlen s a <= strnlen s b)%nat.
Proof.
  induction s as [|c s IH]; intros a b Hab.
  - destruct a, b; cbn; lia.
  - destruct a as [|a]; [ cbn; lia |].
    destruct b as [|b]; [ lia |].
    cbn [strnlen]. destruct (Ascii.eqb c NUL); [ lia |].
    specialize (IH a b). lia.
Qed.

Lemma strnlen_bound s m : (strnlen s m <= m)%nat.
Proof.
  revert s. induction m as [|m IH]; intros [|c s]; cbn [strnlen]; try lia.
  destruct (Ascii.eqb c NUL); [ lia |]. specialize (IH s). lia.
Qed.

Lemma char_at_skipn k : forall (s : list ascii) j,
  char_at (skipn k s) j = char_at s (k + j).
Proof.
  induction k as [|k IH]; intros s j; [ reflexivity |].
  destruct s as [|c s].
  - unfold char_at. cbn [skipn]. now rewrite !nth_overflow by (cbn; lia).
  - cbn [skipn Nat.add]. rewrite char_at_cons. apply IH.
Qed.

(** The length seen from a pointer inside the string. *)
Lemma strnlen_skipn k : forall s a b,
  (k <= strnlen s a)%nat ->
  (k + strnlen (skipn k s) b <= strnlen s (k + b))%nat.
Proof.
  induction k as [|k IH]; intros s a b Hk; [ cbn; lia |].
  destruct a as [|a]; [ destruct s; cbn in Hk; lia |].
  destruct s as [|c s]; [ cbn in Hk; lia |].
  cbn [strnlen skipn Nat.add] in *.
  destruct (Ascii.eqb c NUL); [ lia |].
  specialize (IH s a b ltac:(lia)). lia.
Qed.

(** The IPv4 validator cannot tell two strings apart that agree, class
    by class, up to the terminator or up to index 16. *)
Lemma ipv4_agree s t :
  (forall k, (k <= strnlen s MAX_SIZE_IPV4)%nat ->
             same_class (char_at s k) (char_at t k) = true) ->
  is_valid_ipv4_address (Some s) = is_valid_ipv4_address (Some t).
Proof.
  intros H. unfold is_valid_ipv4_address. cbv zeta.
  rewrite (strnlen_agree _ s t H).
  apply ipv4_loop_agree. intros k Hk. apply H. lia.
Qed.

End AgreementWindow.

Section AgreementIPv6.

Variables s t : list ascii.

Lemma count_dots_agree n : forall p dots,
  (forall k, (p <= k < p + n)%nat ->
             same_class (char_at s k) (char_at t k) = true) ->
  count_dots s n p dots = count_dots t n p dots.
Proof.
  induction n as [|n IH]; intros p dots H; [ reflexivity |].
  cbn [count_dots].
  destruct (same_class_spec _ _ (H p ltac:(lia)))
    as (_ & _ & Hdot & _ & Hd & _).
  rewrite <- Hdot, <- Hd.
  rewrite !IH by (intros k Hk; apply H; lia).
  reflexivity.
Qed.

(** The two strings agree over all that a scan of [s] can reach: the
    window of the main loop, and the 17 bytes the IPv4 validator may
    look at from a token that starts inside the window. *)
Hypothesis agree :
  forall k, (k <= strnlen s (INET6_ADDRSTRLEN + MAX_SIZE_IPV4))%nat ->
            same_class (char_at s k) (char_at t k) = true.

Lemma agree_window k :
  (k <= strnlen s INET6_ADDRSTRLEN)%nat ->
  same_class (char_at s k) (char_at t k) = true.
Proof.
  intros Hk. apply agree.
  pose proof (strnlen_mono s INET6_ADDRSTRLEN
                (INET6_ADDRSTRLEN + MAX_SIZE_IPV4) ltac:(lia)).
  lia.
Qed.

Lemma ipv6_suffix_agree k :
  (k < strnlen s INET6_ADDRSTRLEN)%nat ->
  is_valid_ipv4_address (Some (skipn k s))
  = is_valid_ipv4_address (Some (skipn k t)).
Proof.
  intros Hk. apply ipv4_agree. intros j Hj.
  rewrite !char_at_skipn. apply agree.
  pose proof (strnlen_skipn k s INET6_ADDRSTRLEN MAX_SIZE_IPV4
                ltac:(lia)).
  pose proof (strnlen_bound s INET6_ADDRSTRLEN).
  pose proof (strnlen_mono s (k + MAX_SIZE_IPV4)
                (INET6_ADDRSTRLEN + MAX_SIZE_IPV4) ltac:(lia)).
  lia.
Qed.

Lemma ipv6_step_agree st :
  (curtok st <= src st < strnlen s INET6_ADDRSTRLEN)%nat ->
  ipv6_step s (strnlen s INET6_ADDRSTRLEN) st
  = ipv6_step t (strnlen s INET6_ADDRSTRLEN) st.
Proof.
  intros Hst. unfold ipv6_step. cbv zeta.
  destruct (same_class_spec _ _ (agree_window (src st) ltac:(lia)))
    as (Hh & Hc & Hdot & _).
  rewrite <- Hh, <- Hc, <- Hdot.
  rewrite (count_dots_agree _ (curtok st) 0)
    by (intros k Hk; apply agree_window; lia).
  rewrite (ipv6_suffix_agree (curtok st)) by lia.
  reflexivity.
Qed.

Lemma ipv6_loop_agree n : forall st,
  (src st + n = strnlen s INET6_ADDRSTRLEN)%nat ->
  (curtok st <= src st)%nat ->
  ipv6_loop s (strnlen s INET6_ADDRSTRLEN) n st
  = ipv6_loop t (strnlen s INET6_ADDRSTRLEN) n st.
Proof.
  induction n as [|n IH]; intros st Hn Htok; [ reflexivity |].
  rewrite !ipv6_loop_S, <- ipv6_step_agree by lia.
  destruct (ipv6_step s (strnlen s INET6_ADDRSTRLEN) st) as [st'|st'|]
    eqn:Hstep; try reflexivity.
  apply IH.
  - apply ipv6_step_Continue in Hstep. cbv zeta in Hstep.
    destruct Hstep as [(_ & _ & ->)
                      | [(_ & _ & _ & ->) | (_ & _ & _ & _ & ->)]];
      fields; lia.
  - apply ipv6_step_Continue in Hstep. cbv zeta in Hstep.
    destruct Hstep as [(_ & _ & ->)
                      | [(_ & _ & _ & ->) | (_ & _ & _ & _ & ->)]];
      fields; lia.
Qed.

Lemma ipv6_scan_agree : ipv6_scan s = ipv6_scan t.
Proof.
  unfold ipv6_scan. cbv zeta.
  rewrite (strnlen_agree INET6_ADDRSTRLEN s t)
    by (intros k Hk; apply agree_window; exact Hk).
  destruct (same_class_spec _ _ (agree_window O ltac:(lia)))
    as (_ & Hc0 & _ & Hn0 & _).
  rewrite <- Hn0, <- Hc0.
  destruct (Ascii.eqb (char_at s 0) NUL); [ reflexivity |].
  destruct (Nat.eqb_spec 0 (strnlen s INET6_ADDRSTRLEN)) as [E|E];
    [ reflexivity |].
  destruct (Ascii.eqb (char_at s 0) ":"%char).
  - destruct (Nat.eqb_spec 1 (strnlen s INET6_ADDRSTRLEN)) as [E1|E1];
      [ reflexivity |].
    destruct (same_class_spec _ _ (agree_window 1%nat ltac:(lia)))
      as (_ & Hc1 & _).
    rewrite <- Hc1. cbn [orb].
    destruct (negb (Ascii.eqb (char_at s 1) ":"%char)); [ reflexivity |].
    apply ipv6_loop_agree; fields; lia.
  - apply ipv6_loop_agree; fields; lia.
Qed.

Lemma ipv6_agree :
  is_valid_ipv6_address (Some s) = is_valid_ipv6_address (Some t).
Proof.
  unfold is_valid_ipv6_address. now rewrite ipv6_scan_agree.
Qed.

End AgreementIPv6.

Section ReadWindow.

Lemma strnlen_app_nul a b m : (strnlen (a ++ NUL :: b) m <= length a)%nat.
Proof.
  revert m. induction a as [|c a IH]; intros [|m]; cbn [app strnlen length];
    try lia.
  - rewrite Ascii.eqb_refl. lia.
  - destruct (Ascii.eqb c NUL); [ lia |]. specialize (IH m). lia.
Qed.

Lemma char_at_app_nul a b k :
  (k <= length a)%nat -> char_at (a ++ NUL :: b) k = char_at a k.
Proof.
  intros Hk. unfold char_at.
  destruct (Nat.eq_dec k (length a)) as [->|Hne].
  - rewrite app_nth2, Nat.sub_diag by lia. cbn [nth].
    symmetry. apply nth_overflow. lia.
  - apply app_nth1. lia.
Qed.

Lemma char_at_firstn_app n (s junk : list ascii) k :
  (k < n)%nat -> (n <= length s)%nat ->
  char_at (firstn n s ++ junk) k = char_at s k.
Proof.
  intros Hk Hn. unfold char_at.
  rewrite app_nth1 by (rewrite length_firstn; lia).
  rewrite <- (firstn_skipn n s) at 2.
  rewrite app_nth1 by (rewrite length_firstn; lia). reflexivity.
Qed.

Lemma char_at_map (f : ascii -> ascii) (s : list ascii) k :
  f NUL = NUL -> char_at (map f s) k = f (char_at s k).
Proof.
  intros Hf. unfold char_at. rewrite <- Hf at 1. apply map_nth.
Qed.

Lemma same_class_eq c d : c = d -> same_class c d = true.
Proof. intros ->. apply same_class_refl. Qed.

End ReadWindow.

(** X4: the IPv4 validator reads the string up to its terminator and
    never past index 16.  Two strings that are equal up to the
    terminator of the first, or up to index 16, get the same verdict;
    so whatever follows the terminator in memory, and whatever follows
    the 17th byte of a longer string, has no influence. *)
Theorem ipv4_reads_only_its_window :
  (forall s t,
      (forall k, (k <= strnlen s MAX_SIZE_IPV4)%nat ->
                 char_at s k = char_at t k) ->
      is_valid_ipv4_address (Some s) = is_valid_ipv4_address (Some t))
  /\ (forall a b,
        is_valid_ipv4_address (Some (a ++ NUL :: b))
        = is_valid_ipv4_address (Some a))
  /\ (forall s junk,
        (S MAX_SIZE_IPV4 <= length s)%nat ->
        is_valid_ipv4_address (Some (firstn (S MAX_SIZE_IPV4) s ++ junk))
        = is_valid_ipv4_address (Some s)).
Proof.
  split; [| split ].
  - intros s t H. apply ipv4_agree.
    intros k Hk. apply same_class_eq, H, Hk.
  - intros a b. apply ipv4_agree. intros k Hk.
    apply same_class_eq, char_at_app_nul.
    pose proof (strnlen_app_nul a b MAX_SIZE_IPV4). lia.
  - intros s junk Hlen. apply ipv4_agree. intros k Hk.
    apply same_class_eq, char_at_firstn_app; [| exact Hlen ].
    pose proof (strnlen_bound (firstn (S MAX_SIZE_IPV4) s ++ junk)
                  MAX_SIZE_IPV4).
    lia.
Qed.

Lemma ipv4_reads_only_its_window_witness :
  is_valid_ipv4_address
    (Some (firstn (S MAX_SIZE_IPV4) (of_string "1.2.3.4.000000000")
           ++ of_string "!?"))
  = is_valid_ipv4_address (Some (of_string "1.2.3.4.000000000")).
Proof.
  apply (proj2 (proj2 ipv4_reads_only_its_window)).
  unfold MAX_SIZE_IPV4. simpl. lia.
Defined.

(** X5: the IPv6 validator reads the string up to its terminator and
    never past index 62 (the 46-byte window, and the 17 bytes the
    IPv4 validator may read from a token inside it).  Two strings
    equal that far get the same verdict; what follows the terminator
    in memory has no influence. *)
Theorem ipv6_reads_only_its_window :
  (forall s t,
      (forall k, (k <= strnlen s (INET6_ADDRSTRLEN + MAX_SIZE_IPV4))%nat ->
                 char_at s k = char_at t k) ->
      is_valid_ipv6_address (Some s) = is_valid_ipv6_address (Some t))
  /\ (forall a b,
        is_valid_ipv6_address (Some (a ++ NUL :: b))
        = is_valid_ipv6_address (Some a))
  /\ (forall s junk,
        (S (INET6_ADDRSTRLEN + MAX_SIZE_IPV4) <= length s)%nat ->
        is_valid_ipv6_address
          (Some (firstn (S (INET6_ADDRSTRLEN + MAX_SIZE_IPV4)) s ++ junk))
        = is_valid_ipv6_address (Some s)).
Proof.
  split; [| split ].
  - intros s t H. apply ipv6_agree.
    intros k Hk. apply same_class_eq, H, Hk.
  - intros a b. apply ipv6_agree. intros k Hk.
    apply same_class_eq, char_at_app_nul.
    pose proof (strnlen_app_nul a b (INET6_ADDRSTRLEN + MAX_SIZE_IPV4)).
    lia.
  - intros s junk Hlen. apply ipv6_agree. intros k Hk.
    apply same_class_eq, char_at_firstn_app; [| exact Hlen ].
    pose proof (strnlen_bound
                  (firstn (S (INET6_ADDRSTRLEN + MAX_SIZE_IPV4)) s ++ junk)
                  (INET6_ADDRSTRLEN + MAX_SIZE_IPV4)).
    lia.
Qed.

Lemma ipv6_reads_only_its_window_witness :
  is_valid_ipv6_address
    (Some (firstn (S (INET6_ADDRSTRLEN + MAX_SIZE_IPV4))
             (of_string
                "1111111111111111111111111111111111111111111111111111111111111111")
           ++ of_string "::"))
  = is_valid_ipv6_address
      (Some (of_string
               "1111111111111111111111111111111111111111111111111111111111111111")).
Proof.
  apply (proj2 (proj2 ipv6_reads_only_its_window)).
  unfold MAX_SIZE_IPV4, INET6_ADDRSTRLEN. simpl. lia.
Defined.

(** X6: the validators do not distinguish the case of letters:
    putting a whole string in lower case, or in upper case, leaves
    the verdict of each validator unchanged. *)
Theorem validators_ignore_case (s : list ascii) :
  is_valid_ipv6_address (Some (map ascii_tolower s))
  = is_valid_ipv6_address (Some s)
  /\ is_valid_ipv6_address (Some (map ascii_toupper s))
     = is_valid_ipv6_address (Some s)
  /\ is_valid_ipv4_address (Some (map ascii_tolower s))
     = is_valid_ipv4_address (Some s)
  /\ is_valid_ipv4_address (Some (map ascii_toupper s))
     = is_valid_ipv4_address (Some s).
Proof.
  repeat split; symmetry.
  - apply ipv6_agree. intros k _.
    rewrite char_at_map by reflexivity. apply same_class_tolower.
  - apply ipv6_agree. intros k _.
    rewrite char_at_map by reflexivity. apply same_class_toupper.
  - apply ipv4_agree. intros k _.
    rewrite char_at_map by reflexivity. apply same_class_tolower.
  - apply ipv4_agree. intros k _.
    rewrite char_at_map by reflexivity. apply same_class_toupper.
Qed.

(** ** Addresses made of groups: how many groups *)

Section GroupCount.

Lemma strnlen_le_length s m : (strnlen s m <= length s)%nat.
Proof.
  revert m. induction s as [|c s IH]; intros [|m]; cbn [strnlen length];
    try lia.
  destruct (Ascii.eqb c NUL); [ lia |]. specialize (IH m). lia.
Qed.

(** Entering the main loop on a string that opens with a hex digit,
    whatever its length. *)
Lemma ipv6_scan_xdigit_start s :
  is_xdigit (char_at s 0) = true ->
  ipv6_scan s
  = ipv6_loop s (strnlen s INET6_ADDRSTRLEN) (strnlen s INET6_ADDRSTRLEN)
              (mkScan 0 0 false 0 O 0).
Proof.
  intros Hx. unfold ipv6_scan. cbv zeta.
  unfold is_xdigit in Hx. apply Z.geb_le, Z.le_ge in Hx.
  rewrite (hex_not_nul _ Hx), (hex_not_colon _ Hx).
  destruct s as [|c s]; [ exfalso; apply Hx; reflexivity |].
  unfold char_at in Hx. cbn [nth] in Hx.
  unfold INET6_ADDRSTRLEN. cbn [strnlen].
  rewrite (hex_not_nul _ Hx). cbn [Nat.eqb]. rewrite Nat.sub_0_r.
  reflexivity.
Qed.

(** Entering the main loop on a string that opens with two colons. *)
Lemma ipv6_scan_marker_start rest :
  let s := ":"%char :: ":"%char :: rest in
  ipv6_scan s
  = ipv6_loop s (strnlen s INET6_ADDRSTRLEN)
              (strnlen s INET6_ADDRSTRLEN - 2) (mkScan 2 0 true 2 O 0).
Proof.
  cbv zeta. unfold ipv6_scan. cbv zeta.
  unfold INET6_ADDRSTRLEN. cbn [strnlen].
  unfold char_at at 1 2 3. cbn [nth].
  change (Ascii.eqb ":" NUL) with false.
  change (Ascii.eqb ":" ":") with true. cbv iota.
  cbn [Nat.eqb orb negb]. cbv iota.
  replace (S (S (strnlen rest 44)) - 1)%nat with (S (strnlen rest 44)) by lia.
  replace (S (S (strnlen rest 44)) - 2)%nat with (strnlen rest 44) by lia.
  rewrite ipv6_loop_S, ipv6_step_compress; reflexivity.
Qed.

(** A colon that would close a ninth group. *)
Lemma ipv6_step_overflow str src_endp st :
  char_at str (src st) = ":"%char ->
  xdigits_seen st <> O -> group_count st = 8 ->
  ipv6_step str src_endp st = Reject.
Proof.
  intros Hc Hx Hg. unfold ipv6_step. cbv zeta. rewrite Hc, Hg.
  change (hex_digit_value ":" >=? 0) with false.
  change (Ascii.eqb ":" ":") with true. cbv iota.
  destruct (Nat.eqb_spec (xdigits_seen st) 0); [ contradiction |].
  destruct (S (src st) =? src_endp)%nat; reflexivity.
Qed.

Lemma join_colons_app gs1 gs2 :
  gs1 <> [] -> gs2 <> [] ->
  join_colons (gs1 ++ gs2)
  = join_colons gs1 ++ ":"%char :: join_colons gs2.
Proof.
  intros H1 H2. induction gs1 as [|g gs1 IH]; [ congruence |].
  destruct gs1 as [|g' gs1].
  - destruct gs2 as [|g2 gs2]; [ congruence |]. reflexivity.
  - change ((g :: g' :: gs1) ++ gs2) with (g :: (g' :: gs1) ++ gs2).
    change ((g' :: gs1) ++ gs2) with (g' :: gs1 ++ gs2) at 1.
    rewrite join_colons_cons.
    change (g' :: gs1 ++ gs2) with ((g' :: gs1) ++ gs2).
    rewrite IH by discriminate.
    rewrite join_colons_cons, <- app_assoc. reflexivity.
Qed.

(** Nine groups: the scan does not survive the ninth. *)
Lemma ipv6_loop_overflow str pre gs rest gc hc n :
  str = pre ++ join_colons gs ++ rest ->
  forallb hextet gs = true -> gs <> [] ->
  gc + Z.of_nat (length gs) = 9 ->
  rest = [] \/ (exists r, rest = ":"%char :: r) ->
  (length pre + length (join_colons gs)
   <= strnlen str INET6_ADDRSTRLEN)%nat ->
  (length pre + n = strnlen str INET6_ADDRSTRLEN)%nat ->
  match ipv6_loop str (strnlen str INET6_ADDRSTRLEN) n
                  (mkScan (length pre) gc hc (length pre) O 0) with
  | Some st => ipv6_accept st
  | None => false
  end = false.
Proof.
  intros Hstr Hgs Hne Hgc Hrest Hend Hn.
  set (E := strnlen str INET6_ADDRSTRLEN) in *.
  destruct (ipv6_loop_groups str E gs pre rest gc hc
              (n - length (join_colons gs)) Hgs Hne Hstr Hend ltac:(lia))
    as (st' & Hsrc & Hg & Hc & Hx & Hloop).
  replace (length (join_colons gs) + (n - length (join_colons gs)))%nat
    with n in Hloop by lia.
  rewrite Hloop.
  destruct (n - length (join_colons gs))%nat as [|n'] eqn:En.
  - cbn [ipv6_loop]. unfold ipv6_accept.
    destruct (Nat.ltb_spec 0 (xdigits_seen st')); [| lia ].
    destruct (Z.gtb_spec (group_count st' + 1) 8); [ reflexivity | lia ].
  - rewrite ipv6_loop_S, ipv6_step_overflow; [ reflexivity | | lia | lia ].
    pose proof (strnlen_le_length str INET6_ADDRSTRLEN) as Hle.
    fold E in Hle.
    destruct Hrest as [-> | (r & ->)].
    + rewrite Hstr, app_nil_r, length_app in Hle. lia.
    + rewrite Hsrc, Hstr, app_assoc, <- length_app. apply char_at_app.
Qed.

End GroupCount.

Section GroupCountTheorems.

Lemma forallb_firstn_skipn {A} (f : A -> bool) n l :
  forallb f l = true ->
  forallb f (firstn n l) = true /\ forallb f (skipn n l) = true.
Proof.
  intros H. rewrite <- (firstn_skipn n l), forallb_app in H.
  now apply andb_prop in H.
Qed.

(** A run of groups, cut after its first [k] groups. *)
Lemma join_colons_cut k gs :
  (0 < k <= length gs)%nat ->
  exists rest,
    join_colons gs = join_colons (firstn k gs) ++ rest
    /\ (rest = [] \/ exists r, rest = ":"%char :: r).
Proof.
  intros Hk.
  destruct (skipn k gs) as [|g r] eqn:Hs.
  - exists []. split; [| left; reflexivity ].
    rewrite app_nil_r. rewrite <- (firstn_skipn k gs) at 1.
    now rewrite Hs, app_nil_r.
  - exists (":"%char :: join_colons (g :: r)). split; [| right; eauto ].
    rewrite <- (firstn_skipn k gs) at 1. rewrite Hs.
    apply join_colons_app; [| discriminate ].
    intros E. apply (f_equal (@length _)) in E.
    rewrite length_firstn in E. cbn in E. lia.
Qed.

Lemma plain_overflow_rejected gs tail :
  forallb hextet gs = true -> length gs = 9%nat ->
  tail = [] \/ (exists r, tail = ":"%char :: r) ->
  no_nul tail = true ->
  is_valid_ipv6_address (Some (join_colons gs ++ tail)) = false.
Proof.
  intros Hgs Hlen Htail Hnul.
  assert (gs <> []) as Hne by (intros ->; discriminate).
  pose proof (join_colons_length gs Hgs Hne) as [_ Hj].
  set (s := join_colons gs ++ tail).
  assert (no_nul s = true) as Hs
      by (subst s; rewrite no_nul_app, (join_colons_no_nul _ Hgs); exact Hnul).
  unfold is_valid_ipv6_address.
  rewrite ipv6_scan_xdigit_start.
  - apply (ipv6_loop_overflow s [] gs tail 0 false); try assumption.
    + reflexivity.
    + lia.
    + cbn [length]. rewrite (strnlen_no_nul _ _ Hs).
      subst s. rewrite length_app. unfold INET6_ADDRSTRLEN. lia.
    + reflexivity.
  - subst s. destruct gs as [|g gs]; [ congruence |].
    cbn [forallb] in Hgs. apply andb_prop in Hgs.
    now apply join_colons_head.
Qed.

End GroupCountTheorems.

(** X7: an address written as groups of 1 to 4 hex digits separated
    by single colons, with no compression marker, is accepted if and
    only if it has exactly eight groups. *)
Theorem ipv6_plain_iff_eight_groups (gs : list (list ascii)) :
  gs <> [] -> forallb hextet gs = true ->
  is_valid_ipv6_address (Some (join_colons gs)) = true
  <-> length gs = 8%nat.
Proof.
  intros Hne Hgs.
  destruct (Nat.le_gt_cases (length gs) 8) as [Hle|Hgt].
  - destruct (ipv6_scan_plain_groups gs Hne Hgs Hle)
      as (st & Hscan & Hc & Hf).
    unfold is_valid_ipv6_address. rewrite Hscan, ipv6_accept_spec.
    split.
    + intros [_ H]. specialize (H Hc). lia.
    + intros E. split; [ congruence | intros _; lia ].
  - split; [| lia ]. intros Hv. exfalso.
    destruct (join_colons_cut 9 gs ltac:(lia)) as (rest & Hj & Hrest).
    destruct (forallb_firstn_skipn hextet 9 gs Hgs) as [H9 _].
    pose proof (join_colons_no_nul gs Hgs) as Hnul.
    rewrite Hj in Hv, Hnul.
    rewrite no_nul_app in Hnul. apply andb_prop in Hnul.
    rewrite plain_overflow_rejected in Hv; try tauto; try discriminate.
    rewrite length_firstn. lia.
Qed.

Lemma ipv6_plain_iff_eight_groups_witness :
  is_valid_ipv6_address
    (Some (join_colons [of_string "fe80"; of_string "0"; of_string "0";
                        of_string "0"; of_string "204"; of_string "61ff";
                        of_string "fe9d"; of_string "f156"])) = true
  <-> length [of_string "fe80"; of_string "0"; of_string "0";
              of_string "0"; of_string "204"; of_string "61ff";
              of_string "fe9d"; of_string "f156"] = 8%nat.
Proof.
  apply ipv6_plain_iff_eight_groups; [ discriminate | reflexivity ].
Defined.

Section CompressedCount.

Lemma join_colons_length_le gs :
  forallb hextet gs = true -> (length (join_colons gs) <= 5 * length gs)%nat.
Proof.
  intros H. destruct gs as [|g gs]; [ cbn; lia |].
  pose proof (join_colons_length (g :: gs) H ltac:(discriminate)). lia.
Qed.

Lemma no_nul_char_at (s : list ascii) k :
  no_nul s = true -> (k < length s)%nat ->
  Ascii.eqb (char_at s k) NUL = false.
Proof.
  intros H Hk. unfold no_nul in H. rewrite forallb_forall in H.
  apply negb_true_iff, H, nth_In, Hk.
Qed.

(** The scan of groups [A] and a compression marker, up to eight
    groups, whatever follows: the loop goes on after the marker with
    [length A] groups counted and nothing pending. *)
Lemma ipv6_scan_marker_prefix A tail :
  forallb hextet A = true -> (length A <= 8)%nat ->
  let s := join_colons A ++ ":"%char :: ":"%char :: tail in
  let E := strnlen s INET6_ADDRSTRLEN in
  let p := (length (join_colons A) + 2)%nat in
  (p <= E)%nat
  /\ ipv6_scan s
     = ipv6_loop s E (E - p) (mkScan p (Z.of_nat (length A)) true p O 0).
Proof.
  intros HA Hlen s E p.
  pose proof (join_colons_length_le A HA) as HjA.
  assert (p <= E)%nat as HpE.
  { apply strnlen_ge; [| unfold INET6_ADDRSTRLEN; lia ].
    intros k Hk. subst s.
    change (join_colons A ++ ":"%char :: ":"%char :: tail)
      with (join_colons A ++ [":"%char; ":"%char] ++ tail).
    rewrite app_assoc. unfold char_at.
    rewrite app_nth1 by (rewrite length_app; cbn [length]; lia).
    apply no_nul_char_at; [| rewrite length_app; cbn [length]; lia ].
    rewrite no_nul_app, (join_colons_no_nul _ HA). reflexivity. }
  split; [ exact HpE |].
  destruct A as [|a A].
  - subst s p E. cbn [join_colons app length Nat.add Z.of_nat].
    apply ipv6_scan_marker_start.
  - pose proof (join_colons_length (a :: A) HA ltac:(discriminate))
      as [HjA1 _].
    rewrite ipv6_scan_xdigit_start
      by (subst s; cbn [forallb] in HA; apply andb_prop in HA;
          now apply join_colons_head).
    fold E.
    destruct (ipv6_loop_groups s E (a :: A) []
                (":"%char :: ":"%char :: tail) 0 false
                (E - length (join_colons (a :: A))) HA ltac:(discriminate)
                eq_refl ltac:(cbn [length]; lia) ltac:(lia))
      as (st' & Hsrc & Hg & Hc & Hx & Hloop).
    cbn [length] in Hsrc. rewrite Nat.add_0_l in Hsrc.
    cbn [length] in Hloop.
    replace (length (join_colons (a :: A))
             + (E - length (join_colons (a :: A))))%nat
      with E in Hloop by lia.
    rewrite Hloop.
    assert (char_at s (src st') = ":"%char) as Hc1
        by (rewrite Hsrc; apply char_at_app).
    assert (char_at s (S (src st')) = ":"%char) as Hc2.
    { rewrite Hsrc. subst s.
      change (join_colons (a :: A) ++ ":"%char :: ":"%char :: tail)
        with (join_colons (a :: A) ++ [":"%char] ++ ":"%char :: tail).
      rewrite app_assoc.
      replace (S (length (join_colons (a :: A))))
        with (length (join_colons (a :: A) ++ [":"%char]))
        by (rewrite length_app; cbn [length]; lia).
      apply char_at_app. }
    replace (E - length (join_colons (a :: A)))%nat
      with (S (S (E - p))) by lia.
    rewrite ipv6_loop_S, ipv6_step_close; fields;
      [| exact Hc1 | lia | lia | lia ].
    rewrite ipv6_loop_S, ipv6_step_compress; fields;
      [| exact Hc2 | reflexivity | exact Hc ].
    replace (S (S (src st'))) with p by lia.
    replace (group_count st' + 1) with (Z.of_nat (length (a :: A))) by lia.
    reflexivity.
Qed.

Lemma compressed_overflow_rejected A B :
  forallb hextet A = true -> forallb hextet B = true ->
  (9 <= length A + length B)%nat ->
  is_valid_ipv6_address
    (Some (join_colons A ++ ":"%char :: ":"%char :: join_colons B)) = false.
Proof.
  intros HA HB Hlen.
  pose proof (join_colons_no_nul A HA) as HnA.
  pose proof (join_colons_no_nul B HB) as HnB.
  destruct (Nat.le_gt_cases 9 (length A)) as [HA9|HA8].
  - (* the ninth group is in [A] *)
    destruct (join_colons_cut 9 A ltac:(lia)) as (rest & Hj & Hrest).
    destruct (forallb_firstn_skipn hextet 9 A HA) as [H9 _].
    rewrite Hj, <- app_assoc in *.
    rewrite no_nul_app in HnA. apply andb_prop in HnA.
    apply plain_overflow_rejected.
    + exact H9.
    + rewrite length_firstn. lia.
    + destruct Hrest as [-> | (r & ->)]; right; cbn [app]; eauto.
    + rewrite no_nul_app. destruct HnA as [_ ->]. exact HnB.
  - (* the ninth group is in [B] *)
    remember (9 - length A)%nat as k eqn:Ek.
    destruct (join_colons_cut k B ltac:(lia)) as (rest & Hj & Hrest).
    destruct (forallb_firstn_skipn hextet k B HB) as [Hk _].
    assert (length (firstn k B) = k) as Hlk
        by (rewrite length_firstn; lia).
    assert (firstn k B <> []) as Hne
        by (intros E; rewrite E in Hlk; cbn in Hlk; lia).
    destruct (ipv6_scan_marker_prefix A (join_colons B) HA ltac:(lia))
      as [HpE Hscan].
    cbv zeta in HpE, Hscan.
    unfold is_valid_ipv6_address. rewrite Hscan.
    set (s := join_colons A ++ ":"%char :: ":"%char :: join_colons B) in *.
    set (E := strnlen s INET6_ADDRSTRLEN) in *.
    assert (no_nul s = true) as Hs
        by (subst s; rewrite no_nul_app, HnA; exact HnB).
    pose proof (ipv6_loop_overflow s
                  (join_colons A ++ [":"%char; ":"%char]) (firstn k B)
                  rest (Z.of_nat (length A)) true
                  (E - (length (join_colons A) + 2))) as Hov.
    rewrite length_app in Hov. cbn [length] in Hov. fold E in Hov.
    apply Hov; try assumption.
    + subst s. rewrite Hj, <- app_assoc. reflexivity.
    + lia.
    + subst E. rewrite (strnlen_no_nul _ _ Hs).
      pose proof (join_colons_length_le A HA).
      pose proof (join_colons_length (firstn k B) Hk Hne) as [_ HjB].
      assert (length (join_colons A) + 2 + length (join_colons (firstn k B))
              <= length s)%nat
        by (subst s; rewrite Hj, length_app; cbn [length];
            rewrite length_app; lia).
      assert (length (join_colons A) + 2 + length (join_colons (firstn k B))
              <= INET6_ADDRSTRLEN)%nat; [| lia ].
      unfold INET6_ADDRSTRLEN.
      destruct A as [|a A]; [ cbn [join_colons length] in *; lia |].
      pose proof (join_colons_length (a :: A) HA ltac:(discriminate)).
      lia.
    + lia.
Qed.

End CompressedCount.

(** X8: an address written as groups, a compression marker and
    groups (either side may be empty) is accepted if and only if it
    has at most seven groups in all. *)
Theorem ipv6_compressed_iff_at_most_seven (A B : list (list ascii)) :
  forallb hextet A = true -> forallb hextet B = true ->
  is_valid_ipv6_address
    (Some (join_colons A ++ ":"%char :: ":"%char :: join_colons B)) = true
  <-> (length A + length B <= 7)%nat.
Proof.
  intros HA HB.
  destruct (Nat.le_gt_cases (length A + length B) 8) as [Hle|Hgt].
  - destruct (ipv6_scan_compressed A B HA HB Hle)
      as (st & Hscan & Hc & Hf).
    unfold is_valid_ipv6_address. rewrite Hscan, ipv6_accept_spec.
    split.
    + intros [H _]. specialize (H Hc). lia.
    + intros E. split; [ intros _; lia | congruence ].
  - rewrite compressed_overflow_rejected by (assumption || lia).
    split; [ discriminate | lia ].
Qed.

Lemma ipv6_compressed_iff_at_most_seven_witness :
  is_valid_ipv6_address
    (Some (join_colons [of_string "2001"; of_string "db8"]
           ++ ":"%char :: ":"%char
           :: join_colons [of_string "8a2e"; of_string "0370";
                           of_string "7334"])) = true
  <-> (length [of_string "2001"; of_string "db8"]
       + length [of_string "8a2e"; of_string "0370"; of_string "7334"]
       <= 7)%nat.
Proof.
  apply ipv6_compressed_iff_at_most_seven; reflexivity.
Defined.

(** ** Addresses that end in a dotted quad *)

Section QuadTail.

Lemma digits_xdigits a : forallb isdigit a = true -> forallb is_xdigit a = true.
Proof.
  induction a as [|c a IH]; cbn [forallb]; [ reflexivity |].
  intros H. apply andb_prop in H. destruct H as [Hc Ha].
  rewrite (IH Ha), andb_true_r. unfold is_xdigit.
  rewrite isdigit_hex_value in Hc. apply andb_prop in Hc.
  destruct Hc as [Hc _]. apply Z.leb_le in Hc.
  apply Z.geb_le. exact Hc.
Qed.

Lemma dot_count_app s t : dot_count (s ++ t) = dot_count s + dot_count t.
Proof.
  unfold dot_count. rewrite filter_app, length_app. lia.
Qed.

Lemma dot_count_digits a : forallb isdigit a = true -> dot_count a = 0.
Proof.
  induction a as [|c a IH]; [ reflexivity |].
  cbn [forallb]. intros H. apply andb_prop in H. destruct H as [Hc Ha].
  rewrite dot_count_cons, (isdigit_not_dot _ Hc), (IH Ha). reflexivity.
Qed.

Lemma digit_or_dot_digits a :
  forallb isdigit a = true -> forallb digit_or_dot a = true.
Proof.
  induction a as [|c a IH]; cbn [forallb]; [ reflexivity |].
  intros H. apply andb_prop in H. destruct H as [Hc Ha].
  unfold digit_or_dot at 1. rewrite Hc, orb_true_r. exact (IH Ha).
Qed.

Lemma dotted_shape a b c d :
  forallb isdigit a = true -> forallb isdigit b = true ->
  forallb isdigit c = true -> forallb isdigit d = true ->
  forallb digit_or_dot (dotted a b c d) = true
  /\ dot_count (dotted a b c d) = 3.
Proof.
  intros Ha Hb Hc Hd. unfold dotted. split.
  - repeat (rewrite forallb_app; cbn [forallb]).
    rewrite !digit_or_dot_digits by assumption. reflexivity.
  - repeat (rewrite dot_count_app, dot_count_cons).
    rewrite !dot_count_digits by assumption. reflexivity.
Qed.

(** The loop over a dotted quad that ends a string fitting the
    window: the first octet is read as hex digits, and the dot hands
    the quad to the IPv4 validator, which counts for two groups. *)
Lemma ipv6_loop_quad s pre a b c d gc hc :
  s = pre ++ dotted a b c d ->
  no_nul pre = true -> (length s <= INET6_ADDRSTRLEN)%nat ->
  octet_ok a = true -> octet_ok b = true ->
  octet_ok c = true -> octet_ok d = true ->
  (length a <= 4)%nat -> (length (dotted a b c d) <= MAX_SIZE_IPV4)%nat ->
  exists st,
    ipv6_loop s (length s) (length (dotted a b c d))
              (mkScan (length pre) gc hc (length pre) O 0) = Some st
    /\ has_compression st = hc
    /\ final_group_count st = gc + 2.
Proof.
  intros Hs Hpre Hlen Ha Hb Hc Hd Ha4 Hq.
  pose proof (octet_ok_isdigit _ Ha) as Hda.
  pose proof (octet_ok_isdigit _ Hb) as Hdb.
  pose proof (octet_ok_isdigit _ Hc) as Hdc.
  pose proof (octet_ok_isdigit _ Hd) as Hdd.
  pose proof (no_nul_dotted a b c d Hda Hdb Hdc Hdd) as Hnq.
  assert (no_nul s = true) as Hnul
      by (rewrite Hs, no_nul_app, Hpre; exact Hnq).
  assert (1 <= length a)%nat as Ha1.
  { unfold octet_ok in Ha. destruct a; [ discriminate | cbn; lia ]. }
  set (q := dotted a b c d) in *.
  assert (q = a ++ "."%char :: (b ++ "."%char :: c ++ "."%char :: d))
    as Hqa by reflexivity.
  assert (length a + 1 <= length q)%nat as Hqlen
      by (rewrite Hqa, length_app; cbn [length]; lia).
  assert (length q = length a + S (length q - length a - 1))%nat as Hlq
      by lia.
  rewrite Hlq.
  destruct (ipv6_loop_hex_run s (length s) a pre
              ("."%char :: (b ++ "."%char :: c ++ "."%char :: d))
              ltac:(rewrite Hs, Hqa; reflexivity)
              (digits_xdigits _ Hda)
              (S (length q - length a - 1))
              (mkScan (length pre) gc hc (length pre) O 0))
    as (v & _ & Hloop); fields;
    [ reflexivity | lia | change (16 ^ Z.of_nat 0) with 1; lia |].
  rewrite Hloop, ipv6_loop_S.
  pose proof (ipv6_step_dot_in_window s
                (mkScan (length pre + length a) gc hc (length pre)
                        (0 + length a) v) Hnul Hlen) as Hstep.
  fields. rewrite (strnlen_no_nul _ _ Hnul), Nat.min_l in Hstep
    by exact Hlen.
  rewrite Hstep.
  - assert (skipn (length pre) s = q) as Hsk
        by (rewrite Hs, skipn_app, skipn_all, Nat.sub_diag; reflexivity).
    rewrite Hsk.
    destruct (dotted_shape a b c d Hda Hdb Hdc Hdd) as [Hdd' Hd3].
    fold q in Hdd', Hd3. rewrite Hdd', Hd3.
    rewrite ipv4_decides_grammar by assumption.
    assert (spec_ipv4 q = true) as Hsp
        by (apply spec_ipv4_dotted; exists a, b, c, d; auto).
    rewrite Hsp.
    destruct (Nat.ltb_spec 0 (0 + length a)); [| lia ].
    cbn [andb Z.eqb Pos.eqb].
    eexists. split; [ reflexivity |]. split; [ reflexivity |].
    unfold final_group_count. fields. reflexivity.
  - rewrite Hs, length_app. lia.
  - rewrite Hs, Hqa, app_assoc, <- length_app. apply char_at_app.
Qed.

End QuadTail.

Section EmbeddedQuad.

Variables a b c d : list ascii.
Hypothesis octet_a : octet_ok a = true.
Hypothesis octet_b : octet_ok b = true.
Hypothesis octet_c : octet_ok c = true.
Hypothesis octet_d : octet_ok d = true.
Hypothesis first_octet_fits : (length a <= 4)%nat.
Hypothesis quad_fits : (length (dotted a b c d) <= MAX_SIZE_IPV4)%nat.

Lemma quad_no_nul : no_nul (dotted a b c d) = true.
Proof. apply no_nul_dotted; apply octet_ok_isdigit; assumption. Qed.

Lemma quad_head rest :
  is_xdigit (char_at (dotted a b c d ++ rest) 0) = true.
Proof.
  pose proof (digits_xdigits _ (octet_ok_isdigit _ octet_a)) as H.
  unfold octet_ok in octet_a. unfold dotted.
  destruct a as [|x a']; [ discriminate |].
  cbn [forallb] in H. apply andb_prop in H. exact (proj1 H).
Qed.

(** The loop over groups [B] and a dotted quad that end a string
    fitting the window. *)
Lemma ipv6_loop_groups_quad s pre B gc hc :
  s = pre ++ join_colons (B ++ [dotted a b c d]) ->
  no_nul pre = true -> (length s <= INET6_ADDRSTRLEN)%nat ->
  forallb hextet B = true -> gc + Z.of_nat (length B) <= 8 ->
  exists st,
    ipv6_loop s (length s) (length (join_colons (B ++ [dotted a b c d])))
              (mkScan (length pre) gc hc (length pre) O 0) = Some st
    /\ has_compression st = hc
    /\ final_group_count st = gc + Z.of_nat (length B) + 2.
Proof.
  intros Hs Hpre Hlen HB Hgc.
  destruct B as [|g B].
  - cbn [app join_colons length Z.of_nat] in *.
    destruct (ipv6_loop_quad s pre a b c d gc hc Hs Hpre Hlen)
      as (st & Hl & Hc & Hf); try assumption.
    exists st. repeat split; try assumption. lia.
  - rewrite join_colons_app in * by discriminate.
    change (join_colons [dotted a b c d]) with (dotted a b c d) in *.
    pose proof (join_colons_no_nul (g :: B) HB) as HnB.
    rewrite length_app. cbn [length].
    destruct (ipv6_loop_groups s (length s) (g :: B) pre
                (":"%char :: dotted a b c d) gc hc
                (S (length (dotted a b c d))) HB ltac:(discriminate) Hs)
      as (st' & Hsrc & Hg & Hc & Hx & Hloop).
    + rewrite Hs, !length_app. lia.
    + lia.
    + rewrite Hloop, ipv6_loop_S, ipv6_step_close; fields.
      * destruct (ipv6_loop_quad s
                    (pre ++ join_colons (g :: B) ++ [":"%char])
                    a b c d (group_count st' + 1) hc)
          as (st & Hl & Hc' & Hf); try assumption.
        -- rewrite Hs, <- !app_assoc. reflexivity.
        -- rewrite !no_nul_app, Hpre, HnB. reflexivity.
        -- rewrite !length_app in Hl. cbn [length] in Hl.
           replace (length pre + (length (join_colons (g :: B)) + 1))%nat
             with (S (src st')) in Hl by lia.
           exists st. rewrite Hc.
           split; [ exact Hl |]. split; [ exact Hc' |].
           cbn [length] in *. lia.
      * rewrite Hsrc, Hs, app_assoc, <- length_app. apply char_at_app.
      * lia.
      * rewrite Hsrc, Hs, !length_app. cbn [length].
        pose proof quad_no_nul.
        assert (1 <= length (dotted a b c d))%nat;
          [| lia ].
        unfold dotted. rewrite length_app. cbn [length]. lia.
      * cbn [length] in *. lia.
Qed.

End EmbeddedQuad.

Lemma groups_quad_overflow A tail :
  forallb hextet A = true -> (9 <= length A)%nat ->
  no_nul tail = true ->
  is_valid_ipv6_address
    (Some (join_colons A ++ ":"%char :: tail)) = false.
Proof.
  intros HA H9 Hnul.
  destruct (join_colons_cut 9 A ltac:(lia)) as (rest & Hj & Hrest).
  destruct (forallb_firstn_skipn hextet 9 A HA) as [HA9 _].
  pose proof (join_colons_no_nul A HA) as HnA.
  rewrite Hj in HnA |- *. rewrite <- app_assoc.
  rewrite no_nul_app in HnA. apply andb_prop in HnA.
  apply plain_overflow_rejected.
  - exact HA9.
  - rewrite length_firstn. lia.
  - destruct Hrest as [-> | (r & ->)]; right; cbn [app]; eauto.
  - rewrite no_nul_app. destruct HnA as [_ ->]. exact Hnul.
Qed.

Section EmbeddedQuadTheorems.

Variables a b c d : list ascii.
Hypothesis octet_a : octet_ok a = true.
Hypothesis octet_b : octet_ok b = true.
Hypothesis octet_c : octet_ok c = true.
Hypothesis octet_d : octet_ok d = true.
Hypothesis first_octet_fits : (length a <= 4)%nat.
Hypothesis quad_fits : (length (dotted a b c d) <= MAX_SIZE_IPV4)%nat.

Lemma join_colons_snoc B q :
  B <> [] -> join_colons (B ++ [q]) = join_colons B ++ ":"%char :: q.
Proof. intros H. now rewrite join_colons_app by (assumption || discriminate). Qed.

Lemma groups_quad_no_nul B :
  forallb hextet B = true ->
  no_nul (join_colons (B ++ [dotted a b c d])) = true.
Proof.
  intros HB. pose proof (quad_no_nul a b c d octet_a octet_b octet_c octet_d).
  destruct B as [|g B]; [ assumption |].
  rewrite join_colons_snoc by discriminate.
  rewrite no_nul_app, (join_colons_no_nul _ HB). assumption.
Qed.

Lemma groups_quad_head B rest :
  forallb hextet B = true ->
  is_xdigit (char_at (join_colons (B ++ [dotted a b c d]) ++ rest) 0) = true.
Proof.
  intros HB. destruct B as [|g B].
  - apply quad_head; assumption.
  - rewrite join_colons_snoc, <- app_assoc by discriminate.
    cbn [forallb] in HB. apply andb_prop in HB.
    now apply join_colons_head.
Qed.

Lemma plain_quad_iff A :
  forallb hextet A = true ->
  (length (join_colons (A ++ [dotted a b c d])) <= INET6_ADDRSTRLEN)%nat ->
  is_valid_ipv6_address (Some (join_colons (A ++ [dotted a b c d]))) = true
  <-> length A = 6%nat.
Proof.
  intros HA Hlen.
  destruct (Nat.le_gt_cases (length A) 8) as [Hle|Hgt].
  - set (s := join_colons (A ++ [dotted a b c d])) in *.
    pose proof (groups_quad_no_nul A HA) as Hnul. fold s in Hnul.
    unfold is_valid_ipv6_address.
    rewrite ipv6_scan_from_xdigit; [| exact Hnul | exact Hlen |].
    + destruct (ipv6_loop_groups_quad a b c d octet_a octet_b octet_c
                  octet_d first_octet_fits quad_fits s [] A 0 false)
        as (st & Hl & Hc & Hf); try (reflexivity || assumption || lia).
      cbn [length] in Hl. fold s in Hl. rewrite Hl, ipv6_accept_spec.
      split.
      * intros [_ H]. specialize (H Hc). lia.
      * intros E. split; [ congruence | intros _; lia ].
    + subst s.
      rewrite <- (app_nil_r (join_colons (A ++ [dotted a b c d]))).
      now apply groups_quad_head.
  - split; [| lia ]. intros Hv. exfalso.
    rewrite join_colons_snoc in Hv by (intros ->; cbn in Hgt; lia).
    rewrite groups_quad_overflow in Hv; [ discriminate | exact HA | lia |].
    apply quad_no_nul; assumption.
Qed.

End EmbeddedQuadTheorems.

(** X9: an address written as groups followed by a dotted quad, with
    no compression marker and within 46 characters, is accepted if
    and only if there are exactly six groups: the quad, checked by
    the IPv4 validator, stands for two.  (The quad's first octet is
    read as hex digits first, so it may not have more than four
    digits.)  With no group at all, a dotted quad alone is not an
    IPv6 address. *)
Theorem ipv6_groups_then_quad (A : list (list ascii)) (a b c d : list ascii) :
  octet_ok a = true -> octet_ok b = true ->
  octet_ok c = true -> octet_ok d = true ->
  (length a <= 4)%nat -> (length (dotted a b c d) <= MAX_SIZE_IPV4)%nat ->
  forallb hextet A = true ->
  (length (join_colons (A ++ [dotted a b c d])) <= INET6_ADDRSTRLEN)%nat ->
  is_valid_ipv6_address (Some (join_colons (A ++ [dotted a b c d]))) = true
  <-> length A = 6%nat.
Proof. intros. apply plain_quad_iff; assumption. Qed.

Lemma ipv6_groups_then_quad_witness :
  is_valid_ipv6_address
    (Some (join_colons
             ([of_string "64"; of_string "ff9b"; of_string "0";
               of_string "0"; of_string "0"; of_string "0"]
              ++ [dotted (of_string "192") (of_string "0")
                         (of_string "2") (of_string "33")]))) = true
  <-> length [of_string "64"; of_string "ff9b"; of_string "0";
              of_string "0"; of_string "0"; of_string "0"] = 6%nat.
Proof.
  apply ipv6_groups_then_quad; try reflexivity; simpl;
    unfold MAX_SIZE_IPV4, INET6_ADDRSTRLEN; lia.
Defined.

Section CompressedQuad.

Variables a b c d : list ascii.
Hypothesis octet_a : octet_ok a = true.
Hypothesis octet_b : octet_ok b = true.
Hypothesis octet_c : octet_ok c = true.
Hypothesis octet_d : octet_ok d = true.
Hypothesis first_octet_fits : (length a <= 4)%nat.
Hypothesis quad_fits : (length (dotted a b c d) <= MAX_SIZE_IPV4)%nat.

Lemma compressed_quad_iff A B :
  forallb hextet A = true -> forallb hextet B = true ->
  (length (join_colons A ++ ":"%char :: ":"%char
           :: join_colons (B ++ [dotted a b c d]))
   <= INET6_ADDRSTRLEN)%nat ->
  is_valid_ipv6_address
    (Some (join_colons A ++ ":"%char :: ":"%char
           :: join_colons (B ++ [dotted a b c d]))) = true
  <-> (length A + length B <= 5)%nat.
Proof.
  intros HA HB Hlen.
  pose proof (groups_quad_no_nul a b c d octet_a octet_b octet_c octet_d
                B HB) as Hnt.
  pose proof (join_colons_no_nul A HA) as HnA.
  destruct (Nat.le_gt_cases 9 (length A)) as [HA9|HA8].
  { rewrite groups_quad_overflow; [ split; [ discriminate | lia ] | | |];
      [ exact HA | exact HA9 |].
    cbn [no_nul forallb]. exact Hnt. }
  set (tail := join_colons (B ++ [dotted a b c d])) in *.
  destruct (ipv6_scan_marker_prefix A tail HA ltac:(lia)) as [HpE Hscan].
  cbv zeta in HpE, Hscan.
  set (s := join_colons A ++ ":"%char :: ":"%char :: tail) in *.
  assert (no_nul s = true) as Hs
      by (subst s; rewrite no_nul_app, HnA; exact Hnt).
  rewrite (strnlen_no_nul _ _ Hs), Nat.min_l in HpE, Hscan by exact Hlen.
  assert (length s = length (join_colons A) + 2 + length tail)%nat as Hls
      by (subst s; rewrite length_app; cbn [length]; lia).
  assert (s = (join_colons A ++ [":"%char; ":"%char]) ++ tail) as Hsp
      by (subst s; rewrite <- app_assoc; reflexivity).
  unfold is_valid_ipv6_address. rewrite Hscan.
  replace (length s - (length (join_colons A) + 2))%nat
    with (length tail) by lia.
  destruct (Nat.le_gt_cases (length A + length B) 8) as [Hle|Hgt].
  - destruct (ipv6_loop_groups_quad a b c d octet_a octet_b octet_c
                octet_d first_octet_fits quad_fits s
                (join_colons A ++ [":"%char; ":"%char]) B
                (Z.of_nat (length A)) true Hsp)
      as (st & Hl & Hc & Hf); try assumption.
    + rewrite no_nul_app, HnA. reflexivity.
    + lia.
    + rewrite length_app in Hl. cbn [length] in Hl. fold tail in Hl.
      rewrite Hl, ipv6_accept_spec. split.
      * intros [H _]. specialize (H Hc). lia.
      * intros E. split; [ intros _; lia | congruence ].
  - split; [| lia ]. intros Hv. exfalso.
    remember (9 - length A)%nat as k eqn:Ek.
    destruct (join_colons_cut k (B ++ [dotted a b c d]))
      as (rest & Hj & Hrest);
      [ rewrite length_app; cbn [length]; lia |].
    rewrite firstn_app in Hj.
    replace (k - length B)%nat with 0%nat in Hj by lia.
    cbn [firstn] in Hj. rewrite app_nil_r in Hj.
    destruct (forallb_firstn_skipn hextet k B HB) as [Hk _].
    assert (length (firstn k B) = k) as Hlk
        by (rewrite length_firstn; lia).
    assert (firstn k B <> []) as Hne
        by (intros E; rewrite E in Hlk; cbn in Hlk; lia).
    pose proof (ipv6_loop_overflow s
                  (join_colons A ++ [":"%char; ":"%char]) (firstn k B)
                  rest (Z.of_nat (length A)) true (length tail)) as Hov.
    rewrite length_app in Hov. cbn [length] in Hov.
    rewrite (strnlen_no_nul _ _ Hs), Nat.min_l in Hov by exact Hlen.
    rewrite Hov in Hv; try assumption; try discriminate; try lia.
    + rewrite Hsp. fold tail in Hj. rewrite Hj. reflexivity.
    + fold tail in Hj. rewrite Hls, Hj, length_app. lia.
Qed.

End CompressedQuad.

(** X10: an address written as groups, a compression marker, groups
    and a final dotted quad (either run of groups may be empty, as in
    ["::ffff:192.0.2.128"] and ["::192.0.2.128"]), within 46
    characters, is accepted if and only if it has at most five groups
    besides the quad. *)
Theorem ipv6_compressed_then_quad (A B : list (list ascii))
    (a b c d : list ascii) :
  octet_ok a = true -> octet_ok b = true ->
  octet_ok c = true -> octet_ok d = true ->
  (length a <= 4)%nat -> (length (dotted a b c d) <= MAX_SIZE_IPV4)%nat ->
  forallb hextet A = true -> forallb hextet B = true ->
  (length (join_colons A ++ ":"%char :: ":"%char
           :: join_colons (B ++ [dotted a b c d]))
   <= INET6_ADDRSTRLEN)%nat ->
  is_valid_ipv6_address
    (Some (join_colons A ++ ":"%char :: ":"%char
           :: join_colons (B ++ [dotted a b c d]))) = true
  <-> (length A + length B <= 5)%nat.
Proof. intros. apply compressed_quad_iff; assumption. Qed.

Lemma ipv6_compressed_then_quad_witness :
  is_valid_ipv6_address
    (Some (join_colons [] ++ ":"%char :: ":"%char
           :: join_colons
                ([of_string "ffff"]
                 ++ [dotted (of_string "192") (of_string "0")
                            (of_string "2") (of_string "128")]))) = true
  <-> (length (@nil (list ascii)) + length [of_string "ffff"] <= 5)%nat.
Proof.
  apply ipv6_compressed_then_quad; try reflexivity; simpl;
    unfold MAX_SIZE_IPV4, INET6_ADDRSTRLEN; lia.
Defined.

(** ** Stray bytes *)

Section StrayBytes.

Lemma strnlen_char_at (s : list ascii) : forall m i,
  (i < strnlen s m)%nat -> Ascii.eqb (char_at s i) NUL = false.
Proof.
  induction s as [|c s IH]; intros m i Hi.
  - destruct m; cbn in Hi; lia.
  - destruct m as [|m]; [ cbn in Hi; lia |].
    cbn [strnlen] in Hi. destruct (Ascii.eqb c NUL) eqn:E; [ lia |].
    destruct i as [|i]; [ exact E |].
    rewrite char_at_cons. apply (IH m). lia.
Qed.

Lemma is_xdigit_false c : is_xdigit c = false -> hex_digit_value c < 0.
Proof.
  unfold is_xdigit. rewrite Z.geb_leb. intros H.
  apply Z.leb_gt in H. exact H.
Qed.

Variable s : list ascii.
Variable k : nat.

Lemma ipv4_loop_stray n : forall i cnt start,
  digit_or_dot (char_at s k) = false ->
  Ascii.eqb (char_at s k) NUL = false ->
  (forall j, (j < k)%nat -> Ascii.eqb (char_at s j) NUL = false) ->
  (i <= k < i + n)%nat ->
  ipv4_loop s n i cnt start = false.
Proof.
  induction n as [|n IH]; intros i cnt start Hk Hnul Hbefore Hi; [ lia |].
  rewrite ipv4_loop_S. cbv zeta.
  unfold digit_or_dot in Hk. apply orb_false_elim in Hk.
  destruct Hk as [Hdot Hdig].
  destruct (Nat.eq_dec i k) as [->|Hne].
  - rewrite Hdot, Hnul, Hdig. reflexivity.
  - rewrite (Hbefore i) by lia. rewrite orb_false_r.
    assert (forall cnt' start', ipv4_loop s n (S i) cnt' start' = false)
      as Hrec.
    { intros. apply IH; try assumption; try lia.
      unfold digit_or_dot. now rewrite Hdot, Hdig. }
    rewrite !Hrec.
    destruct (Ascii.eqb (char_at s i) "."%char).
    + destruct (i =? start)%nat; [ reflexivity |].
      destruct (parse_int (Some s) start i) as [v|]; [| reflexivity ].
      destruct (v >? 255); reflexivity.
    + destruct (negb (isdigit (char_at s i))); reflexivity.
Qed.

Lemma ipv6_loop_stray src_endp n : forall st,
  is_xdigit (char_at s k) = false ->
  Ascii.eqb (char_at s k) ":"%char = false ->
  Ascii.eqb (char_at s k) "."%char = false ->
  (k < src_endp)%nat ->
  (src st + n = src_endp)%nat ->
  (curtok st <= src st <= k)%nat ->
  ipv6_loop s src_endp n st = None.
Proof.
  induction n as [|n IH]; intros st Hx Hc Hd Hk Hn Hst; [ lia |].
  rewrite ipv6_loop_S.
  destruct (ipv6_step s src_endp st) as [st'|st'|] eqn:Hstep;
    [| | reflexivity ].
  - assert (src st <> k) as Hne.
    { intros E. apply ipv6_step_Continue in Hstep. cbv zeta in Hstep.
      rewrite E in Hstep. apply is_xdigit_false in Hx.
      destruct Hstep as [(Hh & _) | [(Hc' & _) | (Hc' & _)]];
        [ lia | congruence | congruence ]. }
    apply IH; try assumption.
    + apply ipv6_step_Continue in Hstep. cbv zeta in Hstep.
      destruct Hstep as [(_ & _ & ->)
                        | [(_ & _ & _ & ->) | (_ & _ & _ & _ & ->)]];
        fields; lia.
    + apply ipv6_step_Continue in Hstep. cbv zeta in Hstep.
      destruct Hstep as [(_ & _ & ->)
                        | [(_ & _ & _ & ->) | (_ & _ & _ & _ & ->)]];
        fields; lia.
  - apply ipv6_step_Break in Hstep. destruct Hstep as (_ & _ & Hdots & _).
    pose proof (count_dots_all s _ _ _ _ Hdots k ltac:(lia)) as Hdd.
    unfold digit_or_dot in Hdd. rewrite Hd in Hdd. cbn [orb] in Hdd.
    rewrite isdigit_hex_value in Hdd. apply andb_prop in Hdd.
    destruct Hdd as [Hdd _]. apply is_xdigit_false in Hx.
    apply Z.leb_le in Hdd. lia.
Qed.

End StrayBytes.

(** X11: a byte that has no place in an address is refused wherever
    the scan can meet it.  The IPv4 validator rejects a string with a
    byte other than a digit or a dot before its terminator and within
    its first 17 bytes; the IPv6 validator rejects a string with a
    byte other than a hex digit, a colon or a dot before its terminator
    and within its first 46 bytes. *)
Theorem stray_byte_rejected (s : list ascii) (k : nat) :
  ((k <= MAX_SIZE_IPV4)%nat -> (k < length s)%nat -> no_nul s = true ->
   digit_or_dot (char_at s k) = false ->
   is_valid_ipv4_address (Some s) = false)
  /\ ((k < INET6_ADDRSTRLEN)%nat -> (k < length s)%nat -> no_nul s = true ->
      is_xdigit (char_at s k) = false ->
      Ascii.eqb (char_at s k) ":"%char = false ->
      Ascii.eqb (char_at s k) "."%char = false ->
      is_valid_ipv6_address (Some s) = false).
Proof.
  split.
  - intros Hk Hlen Hnul Hbad. unfold is_valid_ipv4_address. cbv zeta.
    apply (ipv4_loop_stray s k); try assumption.
    + now apply no_nul_char_at.
    + intros j Hj. apply no_nul_char_at; [ assumption | lia ].
    + rewrite (strnlen_no_nul _ _ Hnul). lia.
  - intros Hk Hlen Hnul Hx Hc Hd. unfold is_valid_ipv6_address.
    destruct (ipv6_scan s) as [st|] eqn:Hscan; [| reflexivity ].
    apply ipv6_scan_entry in Hscan. cbv zeta in Hscan.
    destruct Hscan as (src0 & Hlt & Hsrc0 & Hloop).
    rewrite (ipv6_loop_stray s k) in Hloop; try assumption.
    + discriminate.
    + rewrite (strnlen_no_nul _ _ Hnul). lia.
    + fields. lia.
    + fields. destruct Hsrc0 as [[-> _] | (-> & H0 & _)]; [ lia |].
      destruct k as [|k']; [ congruence | lia ].
Qed.

Lemma stray_byte_rejected_witness :
  is_valid_ipv6_address (Some (of_string " ::1")) = false.
Proof.
  apply (proj2 (stray_byte_rejected (of_string " ::1") 0));
    try reflexivity; simpl; unfold INET6_ADDRSTRLEN; lia.
Defined.

(** ** A single colon at either end *)

Section SingleColon.

Variable s : list ascii.
Variable j : nat.
Hypothesis last_digit : is_xdigit (char_at s j) = true.
Hypothesis last_colon : char_at s (S j) = ":"%char.

Lemma ipv6_loop_trailing_colon n : forall st,
  (src st + n = S (S j))%nat ->
  (curtok st <= src st <= S j)%nat ->
  (src st = S j -> xdigits_seen st <> O) ->
  ipv6_loop s (S (S j)) n st = None.
Proof.
  induction n as [|n IH]; intros st Hn Hst Hx; [ lia |].
  rewrite ipv6_loop_S.
  destruct (ipv6_step s (S (S j)) st) as [st'|st'|] eqn:Hstep;
    [| | reflexivity ].
  - pose proof Hstep as Hcases.
    apply ipv6_step_Continue in Hcases. cbv zeta in Hcases.
    assert (src st <> S j) as Hne.
    { intros E. specialize (Hx E). rewrite E, last_colon in Hcases.
      destruct Hcases as [(Hh & _) | [(_ & Hx0 & _) | (_ & _ & He & _)]];
        [ apply Hh; reflexivity | contradiction | lia ]. }
    apply IH.
    + destruct Hcases as [(_ & _ & ->)
                         | [(_ & _ & _ & ->) | (_ & _ & _ & _ & ->)]];
        fields; lia.
    + destruct Hcases as [(_ & _ & ->)
                         | [(_ & _ & _ & ->) | (_ & _ & _ & _ & ->)]];
        fields; lia.
    + intros E.
      unfold is_xdigit in last_digit.
      apply Z.geb_le, Z.le_ge in last_digit.
      pose proof (hex_not_colon _ last_digit) as Hnc.
      destruct Hcases as [(_ & _ & ->)
                         | [(Hc & _ & _ & ->) | (Hc & _ & _ & _ & ->)]];
        fields.
      * lia.
      * injection E as E. rewrite E in Hc. congruence.
      * injection E as E. rewrite E in Hc. congruence.
  - apply ipv6_step_Break in Hstep. destruct Hstep as (_ & _ & Hdots & _).
    pose proof (count_dots_all s _ _ _ _ Hdots (S j) ltac:(lia)) as Hdd.
    rewrite last_colon in Hdd. discriminate.
Qed.

End SingleColon.

(** X12: a single colon at either end of an address is refused: a
    string that opens with a colon not followed by a second one, and
    a string within the window that ends with a colon right after a
    hex digit, are rejected. *)
Theorem ipv6_single_colon_rejected :
  (forall s,
      char_at s 0 = ":"%char -> Ascii.eqb (char_at s 1) ":"%char = false ->
      is_valid_ipv6_address (Some s) = false)
  /\ (forall pre h,
        no_nul pre = true -> is_xdigit h = true ->
        (length pre + 2 <= INET6_ADDRSTRLEN)%nat ->
        is_valid_ipv6_address (Some (pre ++ [h; ":"%char])) = false).
Proof.
  split.
  - intros s H0 H1. unfold is_valid_ipv6_address, ipv6_scan. cbv zeta.
    rewrite H0, H1.
    change (Ascii.eqb ":" NUL) with false.
    change (Ascii.eqb ":" ":") with true. cbv iota.
    destruct (0 =? strnlen s INET6_ADDRSTRLEN)%nat; [ reflexivity |].
    cbn [negb]. rewrite orb_true_r. reflexivity.
  - intros pre h Hnul Hh Hlen.
    set (s := pre ++ [h; ":"%char]).
    assert (char_at s (length pre) = h) as Hch by apply char_at_app.
    assert (char_at s (S (length pre)) = ":"%char) as Hcc.
    { subst s. change [h; ":"%char] with ([h] ++ [":"%char]).
      rewrite app_assoc.
      replace (S (length pre)) with (length (pre ++ [h]))
        by (rewrite length_app; cbn [length]; lia).
      apply char_at_app. }
    assert (no_nul s = true) as Hs.
    { subst s. rewrite no_nul_app, Hnul. cbn [no_nul forallb].
      unfold is_xdigit in Hh. apply Z.geb_le, Z.le_ge in Hh.
      rewrite (hex_not_nul _ Hh). reflexivity. }
    assert (strnlen s INET6_ADDRSTRLEN = S (S (length pre))) as HE.
    { rewrite (strnlen_no_nul _ _ Hs). subst s.
      rewrite length_app. cbn [length]. lia. }
    unfold is_valid_ipv6_address.
    destruct (ipv6_scan s) as [st|] eqn:Hscan; [| reflexivity ].
    apply ipv6_scan_entry in Hscan. cbv zeta in Hscan.
    destruct Hscan as (src0 & Hlt & Hsrc0 & Hloop).
    rewrite HE in Hloop, Hlt.
    rewrite (ipv6_loop_trailing_colon s (length pre)) in Hloop.
    + discriminate.
    + rewrite Hch. exact Hh.
    + exact Hcc.
    + fields. lia.
    + fields. lia.
    + fields. intros E. exfalso.
      unfold is_xdigit in Hh. apply Z.geb_le, Z.le_ge in Hh.
      destruct Hsrc0 as [[-> _] | (-> & H0 & _)]; [ lia |].
      injection E as E. rewrite <- E in Hch. rewrite Hch in H0.
      rewrite (hex_not_colon _ Hh) in H0. discriminate.
Qed.

Lemma ipv6_single_colon_rejected_witness :
  is_valid_ipv6_address (Some (of_string "2001:db8::" ++ [ "1"%char; ":"%char ]))
  = false.
Proof.
  apply (proj2 ipv6_single_colon_rejected); try reflexivity.
  simpl. unfold INET6_ADDRSTRLEN. lia.
Defined.

(** ** The two grammars are disjoint *)

Section Disjoint.

Variable s : list ascii.

Lemma ipv4_loop_first_octet n : forall i,
  (forall j, (j < i)%nat -> isdigit (char_at s j) = true) ->
  ipv4_loop s n i 0 0 = true ->
  exists p, (1 <= p)%nat /\ (i <= p < i + n)%nat
            /\ (forall j, (j < p)%nat -> isdigit (char_at s j) = true)
            /\ char_at s p = "."%char.
Proof.
  induction n as [|n IH]; intros i Hd H; [ discriminate |].
  rewrite ipv4_loop_S in H. cbv zeta in H.
  destruct (Ascii.eqb (char_at s i) "."%char) eqn:Hdot.
  - cbn [orb] in H.
    destruct (Nat.eqb_spec i 0) as [E|E]; [ discriminate |].
    exists i. apply Ascii.eqb_eq in Hdot.
    repeat split; try assumption; lia.
  - cbn [orb] in H.
    destruct (Ascii.eqb (char_at s i) NUL).
    + destruct (i =? 0)%nat; [ discriminate |].
      destruct (parse_int (Some s) 0 i) as [v|]; [| discriminate ].
      destruct (v >? 255); discriminate.
    + destruct (isdigit (char_at s i)) eqn:Hi; [| discriminate ].
      cbn [negb] in H.
      destruct (IH (S i)) as (p & Hp1 & Hp & Hdp & Hc); [| exact H |].
      * intros j Hj. destruct (Nat.eq_dec j i) as [->|]; [ exact Hi |].
        apply Hd. lia.
      * exists p. repeat split; try assumption; lia.
Qed.

Lemma forallb_firstn_char_at (P : ascii -> bool) p :
  (p <= length s)%nat ->
  (forall j, (j < p)%nat -> P (char_at s j) = true) ->
  forallb P (firstn p s) = true.
Proof.
  intros Hp H. apply forallb_forall. intros x Hx.
  destruct (In_nth _ _ NUL Hx) as (j & Hj & <-).
  rewrite length_firstn, Nat.min_l in Hj by exact Hp.
  rewrite nth_firstn.
  destruct (Nat.ltb_spec j p); [| lia ].
  apply H. lia.
Qed.

End Disjoint.

(** X13: no string is accepted by both validators: what the IPv4
    validator accepts, the IPv6 validator rejects. *)
Theorem ipv4_and_ipv6_disjoint (s : list ascii) :
  is_valid_ipv4_address (Some s) = true ->
  is_valid_ipv6_address (Some s) = false.
Proof.
  intros Hv4. unfold is_valid_ipv4_address in Hv4. cbv zeta in Hv4.
  destruct (ipv4_loop_first_octet s _ 0 ltac:(intros; lia) Hv4)
    as (p & Hp1 & Hp & Hd & Hdot).
  pose proof (strnlen_bound s MAX_SIZE_IPV4) as Hb.
  unfold MAX_SIZE_IPV4 in *.
  assert (forall j, (j < p)%nat -> hex_digit_value (char_at s j) >= 0)
    as Hx.
  { intros j Hj. specialize (Hd j Hj).
    rewrite isdigit_hex_value in Hd. apply andb_prop in Hd.
    destruct Hd as [Hd _]. apply Z.leb_le in Hd. lia. }
  assert (S p <= strnlen s INET6_ADDRSTRLEN)%nat as HE.
  { apply strnlen_ge; [| unfold INET6_ADDRSTRLEN; lia ].
    intros j Hj. destruct (Nat.eq_dec j p) as [->|Hne].
    - rewrite Hdot. reflexivity.
    - apply hex_not_nul, Hx. lia. }
  assert (is_xdigit (char_at s 0) = true) as H0.
  { unfold is_xdigit. apply Z.geb_le.
    specialize (Hx O ltac:(lia)). lia. }
  unfold is_valid_ipv6_address.
  rewrite (ipv6_scan_xdigit_start s H0).
  set (E := strnlen s INET6_ADDRSTRLEN) in *.
  destruct (Nat.le_gt_cases 5 p) as [H5|H4].
  - (* five digits or more before the first dot *)
    rewrite (loop_rejects_fifth_digit s E 0); try reflexivity; fields;
      try lia.
    intros j Hj. apply Hx. lia.
  - (* the first octet is read as a group, then the dot is met *)
    pose proof (strnlen_le_length s INET6_ADDRSTRLEN) as Hle. fold E in Hle.
    destruct (ipv6_loop_hex_run s E (firstn p s) [] (skipn p s)
                ltac:(symmetry; apply firstn_skipn)
                (forallb_firstn_char_at s is_xdigit p ltac:(lia)
                   ltac:(intros j Hj; unfold is_xdigit; apply Z.geb_le;
                         specialize (Hx j Hj); lia))
                (E - p)%nat (mkScan 0 0 false 0 O 0))
      as (v & _ & Hloop); fields;
      [ reflexivity | rewrite length_firstn; lia
      | change (16 ^ Z.of_nat 0) with 1; lia |].
    rewrite length_firstn, Nat.min_l in Hloop by lia.
    replace (p + (E - p))%nat with E in Hloop by lia.
    rewrite Hloop.
    replace (E - p)%nat with (S (E - p - 1)) by lia.
    rewrite ipv6_loop_S.
    destruct (ipv6_step s E _) as [st'|st'|] eqn:Hstep; [| | reflexivity ].
    + apply ipv6_step_Continue in Hstep. cbv zeta in Hstep. fields.
      cbn [Nat.add] in Hstep. rewrite Hdot in Hstep.
      destruct Hstep as [(Hh & _) | [(Hc & _) | (Hc & _)]];
        [ exfalso; apply Hh; reflexivity | discriminate | discriminate ].
    + apply ipv6_step_Break in Hstep.
      destruct Hstep as (_ & _ & _ & _ & ->). reflexivity.
Qed.

Lemma ipv4_and_ipv6_disjoint_witness :
  is_valid_ipv6_address (Some (of_string "192.168.1.1")) = false.
Proof.
  apply ipv4_and_ipv6_disjoint. reflexivity.
Defined.

(** * The regression harness *)

Section HarnessFacts.

Variables reference custom : option (list ascii) -> bool.



End HarnessFacts.

Section SuiteFacts.








End SuiteFacts.




